(** * Tabular configuration compiler: Excel sheets to generated Python modules

    A shallow embedding of [utils/excel_to_code.py] (class
    [ExcelToCodeConverter]) and [utils/config_manager.py] (class
    [ConfigManager]), and the properties of the compile / validate / cache /
    reload pipeline.

    Conventions of the embedding.
    - A Python [str] is a Rocq [string]: the bytes of its UTF-8 encoding.
      The delimiters the code looks for (brackets, commas, quotes,
      backslashes, ASCII white space) are single bytes that never occur
      inside a multi-byte sequence, so slicing by one such character is
      slicing by one byte.  [lower], [upper] and [strip] act on ASCII
      letters and ASCII white space.
    - Python [int] is [Z].  Python [float] is a type the development is
      parametric in, with the conversions the code calls.
    - [st_mtime] time stamps are [Z]: the code only compares them.
    - Python dictionaries that are iterated (the compiled data) are
      association lists in insertion order; the dictionaries used as plain
      maps (recorded times, loaded modules, directories) are [gmap]s.
    - A caught exception is the [None] of an [option]; log lines are not part
      of the state. *)

From Stdlib Require Import ZArith Ascii String.
From stdpp Require Import base option list strings pretty gmap fin_maps sorting.

Set Warnings "-register-all".

Local Open Scope Z_scope.

(** ** Python string primitives *)

(** The double quote character (decimal 34). *)
Definition dquote : ascii := "034"%char.
(** The backslash (decimal 92). *)
Definition backslash : ascii := "092"%char.
Definition LF : ascii := "010"%char.
Definition CR : ascii := "013"%char.
Definition TAB : ascii := "009"%char.

Definition str1 (c : ascii) : string := String c EmptyString.

(** [s.replace(c, r)] for a one-character [c]. *)
Fixpoint str_replace (c : ascii) (r : string) (s : string) : string :=
  match s with
  | EmptyString => EmptyString
  | String a s' =>
      if Ascii.eqb a c then r +:+ str_replace c r s'
      else String a (str_replace c r s')
  end.

(** [c in s] for a one-character [c]. *)
Fixpoint str_contains (c : ascii) (s : string) : bool :=
  match s with
  | EmptyString => false
  | String a s' => Ascii.eqb a c || str_contains c s'
  end.

(** ASCII white space as [str.strip] and [str.isspace] see it: TAB, LF, VT,
    FF, CR, the separators FS, GS, RS, US, and the space. *)
Definition py_isspace (a : ascii) : bool :=
  let n := N_of_ascii a in
  ((9 <=? n) && (n <=? 13) || (28 <=? n) && (n <=? 32))%N.

Fixpoint lstrip (s : string) : string :=
  match s with
  | EmptyString => EmptyString
  | String a s' => if py_isspace a then lstrip s' else s
  end.

(** Drops the trailing white space: a character is kept when it is not a
    space or when something is kept after it. *)
Fixpoint rstrip (s : string) : string :=
  match s with
  | EmptyString => EmptyString
  | String a s' =>
      match rstrip s' with
      | EmptyString => if py_isspace a then EmptyString else str1 a
      | t => String a t
      end
  end.

(** [s.strip()] *)
Definition strip (s : string) : string := rstrip (lstrip s).

(** [s.startswith(c)] and [s.endswith(c)] for a one-character [c]. *)
Definition startswith (c : ascii) (s : string) : bool :=
  match s with
  | String a _ => Ascii.eqb a c
  | EmptyString => false
  end.

Fixpoint endswith (c : ascii) (s : string) : bool :=
  match s with
  | EmptyString => false
  | String a EmptyString => Ascii.eqb a c
  | String _ s' => endswith c s'
  end.

(** [s[:-1]] *)
Fixpoint drop_last (s : string) : string :=
  match s with
  | EmptyString => EmptyString
  | String _ EmptyString => EmptyString
  | String a s' => String a (drop_last s')
  end.

(** [s[1:-1]] *)
Definition slice_1_m1 (s : string) : string :=
  match s with
  | EmptyString => EmptyString
  | String _ s' => drop_last s'
  end.

(** [s.split(c)] for a one-character separator: never the empty list. *)
Fixpoint str_split (c : ascii) (s : string) : list string :=
  match s with
  | EmptyString => [EmptyString]
  | String a s' =>
      if Ascii.eqb a c then EmptyString :: str_split c s'
      else match str_split c s' with
           | w :: ws => String a w :: ws
           | [] => [str1 a]
           end
  end.

Definition ascii_lower (a : ascii) : ascii :=
  let n := N_of_ascii a in
  if ((65 <=? n) && (n <=? 90))%N then ascii_of_N (n + 32) else a.

Definition ascii_upper (a : ascii) : ascii :=
  let n := N_of_ascii a in
  if ((97 <=? n) && (n <=? 122))%N then ascii_of_N (n - 32) else a.

Fixpoint str_map (f : ascii → ascii) (s : string) : string :=
  match s with
  | EmptyString => EmptyString
  | String a s' => String (f a) (str_map f s')
  end.

(** [s.lower()] and [s.upper()] *)
Definition lower : string → string := str_map ascii_lower.
Definition upper : string → string := str_map ascii_upper.

(** [' ' * n] *)
Fixpoint spaces (n : nat) : string :=
  match n with
  | O => EmptyString
  | S n' => String " " (spaces n')
  end.

(** [sep.join(items)] *)
Fixpoint str_join (sep : string) (items : list string) : string :=
  match items with
  | [] => EmptyString
  | [x] => x
  | x :: rest => x +:+ sep +:+ str_join sep rest
  end.

(** ** [_escape_string] *)

(** The five replacements in the order of the source: the double quote first,
    the backslash second, then line feed, carriage return and tab; the result
    is wrapped in double quotes. *)
Definition _escape_string (s : string) : string :=
  let s := str_replace dquote (String backslash (str1 dquote)) s in
  let s := str_replace backslash (String backslash (str1 backslash)) s in
  let s := str_replace LF (String backslash "n") s in
  let s := str_replace CR (String backslash "r") s in
  let s := str_replace TAB (String backslash "t") s in
  str1 dquote +:+ s +:+ str1 dquote.

(** The five replacements alone, before the quotes are put around. *)
Definition escape_body (s : string) : string :=
  str_replace TAB (String backslash "t")
    (str_replace CR (String backslash "r")
       (str_replace LF (String backslash "n")
          (str_replace backslash (String backslash (str1 backslash))
             (str_replace dquote (String backslash (str1 dquote)) s)))).

(** ** Reading a string literal back

    What the Python lexer makes of a text that should be a double-quoted
    string literal (adjacent literals are concatenated, as in Python). *)

Inductive lit_result :=
  | LitOk (s : string)       (* the text denotes this string *)
  | LitSyntaxError           (* the lexer rejects the text *)
  | LitOther.                (* the text leaves the fragment modelled here *)

Definition lit_cons (c : ascii) (r : lit_result) : lit_result :=
  match r with
  | LitOk s => LitOk (String c s)
  | other => other
  end.

Definition lit_cons2 (c d : ascii) (r : lit_result) : lit_result :=
  lit_cons c (lit_cons d r).

Inductive escape_meaning :=
  | EscChar (c : ascii)      (* a recognised one-character escape *)
  | EscLineJoin              (* backslash-newline: nothing *)
  | EscNumeric               (* octal, \x, \u, \U, \N: not modelled *)
  | EscKeep.                 (* unrecognised: backslash and character stay *)

Definition decode_escape (e : ascii) : escape_meaning :=
  if Ascii.eqb e backslash then EscChar backslash
  else if Ascii.eqb e dquote then EscChar dquote
  else if Ascii.eqb e "'" then EscChar "'"
  else if Ascii.eqb e "n" then EscChar LF
  else if Ascii.eqb e "r" then EscChar CR
  else if Ascii.eqb e "t" then EscChar TAB
  else if Ascii.eqb e "a" then EscChar "007"
  else if Ascii.eqb e "b" then EscChar "008"
  else if Ascii.eqb e "f" then EscChar "012"
  else if Ascii.eqb e "v" then EscChar "011"
  else if Ascii.eqb e LF then EscLineJoin
  else if ((48 <=? N_of_ascii e) && (N_of_ascii e <=? 55))%N then EscNumeric
  else if Ascii.eqb e "x" || Ascii.eqb e "u" || Ascii.eqb e "U"
          || Ascii.eqb e "N" then EscNumeric
  else EscKeep.

(** [inside = true]: between the quotes of a literal; [inside = false]:
    after a closing quote, where only blanks or another literal may follow. *)
Fixpoint lex_literal (inside : bool) (s : string) : lit_result :=
  match s with
  | EmptyString => if inside then LitSyntaxError else LitOk EmptyString
  | String c rest =>
      if inside then
        if Ascii.eqb c dquote then lex_literal false rest
        else if Ascii.eqb c LF || Ascii.eqb c CR then LitSyntaxError
        else if Ascii.eqb c "000" then LitOther
        else if Ascii.eqb c backslash then
          match rest with
          | EmptyString => LitSyntaxError
          | String e rest' =>
              match decode_escape e with
              | EscChar d => lit_cons d (lex_literal true rest')
              | EscLineJoin => lex_literal true rest'
              | EscNumeric => LitOther
              | EscKeep => lit_cons2 backslash e (lex_literal true rest')
              end
          end
        else lit_cons c (lex_literal true rest)
      else
        if Ascii.eqb c dquote then lex_literal true rest
        else if Ascii.eqb c " " || Ascii.eqb c TAB then lex_literal false rest
        else LitOther
  end.

(** The value of a text read as one string-literal expression. *)
Definition eval_string_literal (s : string) : lit_result :=
  match s with
  | String c rest => if Ascii.eqb c dquote then lex_literal true rest else LitOther
  | EmptyString => LitOther
  end.

(** ** Python values *)

(** Python's [float], with the conversions the converter calls.  [None]
    stands for a raised exception. *)
Class PyFloat := {
  pyfloat : Type;
  pyfloat_eq_dec :: EqDecision pyfloat;
  float_zero : pyfloat;                     (* 0.0 *)
  float_str : pyfloat → string;             (* str(x) *)
  float_truthy : pyfloat → bool;            (* bool(x) *)
  float_to_int : pyfloat → option Z;        (* int(x) *)
  float_of_int : Z → option pyfloat;        (* float(n) *)
  float_of_str : string → option pyfloat;   (* float(s) *)
}.

(** A spreadsheet cell as [pandas.read_excel] hands it over: [NaN] for an
    empty cell, else text, an integer, a float or a boolean. *)
Inductive cell `{PyFloat} :=
  | NaN
  | CStr (s : string)
  | CInt (z : Z)
  | CFloat (x : pyfloat)
  | CBool (b : bool).

(** Compiled values.  Dictionaries keep insertion order; their keys are
    scalars, compared structurally. *)
Inductive pyval `{PyFloat} :=
  | VNone
  | VNaN
  | VStr (s : string)
  | VInt (z : Z)
  | VFloat (x : pyfloat)
  | VBool (b : bool)
  | VList (l : list pyval)
  | VDict (d : list (cell * pyval)).

(** What the standard parsers and the module loader do is outside of the
    repository: [json.loads], [yaml.safe_load] and the execution of a
    generated module ([spec.loader.exec_module]), which yields the module's
    data attributes or fails. *)
Class PyLibs `{PyFloat} := {
  json_loads : string → option pyval;
  yaml_safe_load : string → option pyval;
  exec_module : string → option (gmap string pyval);
}.

Section Converter.
Context `{PyFloat}.

#[global] Instance cell_eq_dec : EqDecision cell.
Proof. solve_decision. Defined.

Definition cell_val (c : cell) : pyval :=
  match c with
  | NaN => VNaN
  | CStr s => VStr s
  | CInt z => VInt z
  | CFloat x => VFloat x
  | CBool b => VBool b
  end.

(** [pd.isna(value)] *)
Definition isna (c : cell) : bool :=
  match c with NaN => true | _ => false end.

(** [isinstance(value, str)] *)
Definition is_str (c : cell) : bool :=
  match c with CStr _ => true | _ => false end.

Definition bool_str (b : bool) : string := if b then "True" else "False".

(** [str(value)] *)
Definition cell_str (c : cell) : string :=
  match c with
  | NaN => "nan"
  | CStr s => s
  | CInt z => pretty z
  | CFloat x => float_str x
  | CBool b => bool_str b
  end.

Definition digit_val (a : ascii) : option Z :=
  let n := N_of_ascii a in
  if ((48 <=? n) && (n <=? 57))%N then Some (Z.of_N n - 48) else None.

(** Decimal digits, single underscores allowed between two digits.
    [after_digit] tells whether the previous character was a digit. *)
Fixpoint parse_digits (acc : Z) (after_digit : bool) (s : string) : option Z :=
  match s with
  | EmptyString => if after_digit then Some acc else None
  | String a s' =>
      match digit_val a with
      | Some d => parse_digits (acc * 10 + d) true s'
      | None =>
          if Ascii.eqb a "_" && after_digit then parse_digits acc false s'
          else None
      end
  end.

(** [int(s)] for a string: surrounding white space, an optional sign,
    decimal digits. *)
Definition int_of_str (s : string) : option Z :=
  match strip s with
  | String "+" r => parse_digits 0 false r
  | String "-" r => Z.opp <$> parse_digits 0 false r
  | t => parse_digits 0 false t
  end.

(** [int(value)] *)
Definition py_int (c : cell) : option Z :=
  match c with
  | NaN => None
  | CStr s => int_of_str s
  | CInt z => Some z
  | CFloat x => float_to_int x
  | CBool b => Some (if b then 1 else 0)
  end.

(** [float(value)] *)
Definition py_float (c : cell) : option pyfloat :=
  match c with
  | NaN => None
  | CStr s => float_of_str s
  | CInt z => float_of_int z
  | CFloat x => Some x
  | CBool b => float_of_int (if b then 1 else 0)
  end.

(** [bool(value)] for a value that is not a string. *)
Definition py_bool (c : cell) : bool :=
  match c with
  | NaN => true
  | CStr s => negb (String.eqb s EmptyString)
  | CInt z => negb (z =? 0)
  | CFloat x => float_truthy x
  | CBool b => b
  end.

(** ** Type coercion: [_process_value_by_type] and its parsers *)

(** One element of a list cell: a float when it has a dot and parses, an
    integer when it has none and parses, else the text. *)
Definition parse_list_item (item : string) : pyval :=
  if str_contains "." item then
    match float_of_str item with Some x => VFloat x | None => VStr item end
  else
    match int_of_str item with Some z => VInt z | None => VStr item end.

Definition parse_items (content : string) : list pyval :=
  parse_list_item <$> (strip <$> str_split "," content).

Definition _parse_list_value (value : cell) : list pyval :=
  match value with
  | CStr raw =>
      let value := strip raw in
      if startswith "[" value && endswith "]" value then
        let content := strip (slice_1_m1 value) in
        if String.eqb content EmptyString then []
        else parse_items content
      else if str_contains "," value then parse_items value
      else [VStr value]
  | other => [VStr (cell_str other)]
  end.

Context `{!PyLibs}.

Definition _parse_json_value (value : cell) : pyval :=
  match value with
  | CStr raw =>
      let value := strip raw in
      if startswith "{" value && endswith "}" value then
        match json_loads value with
        | Some v => v
        | None => VStr value
        end
      else VStr value
  | other => cell_val other
  end.

Definition _parse_yaml_value (value : cell) : pyval :=
  match value with
  | CStr raw =>
      let value := strip raw in
      if startswith "-" value || str_contains ":" value then
        match yaml_safe_load value with
        | Some v => v
        | None => VStr value
        end
      else VStr value
  | other => cell_val other
  end.

(** The localized affirmative word of the boolean column. *)
Definition shi : string := "是".

Definition true_literals : list string := ["true"; "1"; "yes"; shi].

(** [str(col_type).strip().lower()] *)
Definition norm_type (col_type : cell) : string := lower (strip (cell_str col_type)).

Definition _process_value_by_type (value : cell) (col_type : cell) : pyval :=
  if isna value then VNone
  else
    let col_type := norm_type col_type in
    if String.eqb col_type "string" then VStr (strip (cell_str value))
    else if String.eqb col_type "int" then
      match py_int value with Some z => VInt z | None => VInt 0 end
    else if String.eqb col_type "float" then
      match py_float value with Some x => VFloat x | None => VFloat float_zero end
    else if String.eqb col_type "bool" then
      match value with
      | CStr s => VBool (bool_decide (lower s ∈ true_literals))
      | other => VBool (py_bool other)
      end
    else if String.eqb col_type "list" then VList (_parse_list_value value)
    else if String.eqb col_type "json" then _parse_json_value value
    else if String.eqb col_type "yaml" then _parse_yaml_value value
    else VStr (strip (cell_str value)).

(** ** Sheets: [_convert_sheet_to_dict] *)

(** A sheet read with [header=None]: its rows, all of one width. *)
Definition DataFrame : Type := list (list cell).

(** [df.empty]: no row, or no column. *)
Definition df_empty (df : DataFrame) : bool :=
  match df with
  | [] => true
  | [] :: _ => true
  | _ => false
  end.

(** [len(df.columns)] *)
Definition df_ncols (df : DataFrame) : nat :=
  match df with
  | [] => O
  | r :: _ => length r
  end.

(** [df.iloc[i].tolist()] *)
Definition df_row (df : DataFrame) (i : nat) : list cell := default [] (df !! i).

(** The cell of a row under the [i]-th column label.  The code reads it by
    label ([row[col]]); the labels of a sheet are taken to be distinct, so
    that the label selects the position. *)
Definition cell_at (row : list cell) (i : nat) : cell := default NaN (row !! i).

(** [d[k] = v] on an insertion-ordered dictionary. *)
Fixpoint dict_set {K V} `{EqDecision K} (k : K) (v : V) (d : list (K * V)) : list (K * V) :=
  match d with
  | [] => [(k, v)]
  | (k', v') :: d' =>
      if decide (k' = k) then (k', v) :: d' else (k', v') :: dict_set k v d'
  end.

(** [d.get(k)] *)
Fixpoint dict_get {K V} `{EqDecision K} (k : K) (d : list (K * V)) : option V :=
  match d with
  | [] => None
  | (k', v') :: d' => if decide (k' = k) then Some v' else dict_get k d'
  end.

(** [enumerate(l, n)] *)
Fixpoint enumerate {A} (n : nat) (l : list A) : list (nat * A) :=
  match l with
  | [] => []
  | x :: l' => (n, x) :: enumerate (S n) l'
  end.

(** [type_definitions[i] if i < len(type_definitions) else 'string'] *)
Definition col_type_at (type_definitions : list cell) (i : nat) : cell :=
  default (CStr "string") (type_definitions !! i).

(** The attribute dictionary of one data row: every column after the key
    column gets an entry. *)
Definition row_item_data (column_names type_definitions row : list cell) : list (cell * pyval) :=
  foldl (λ item_data '(i, col),
           dict_set col
             (_process_value_by_type (cell_at row i) (col_type_at type_definitions i))
             item_data)
        [] (enumerate 1 (tail column_names)).

(** [key == ''] *)
Definition is_empty_str (c : cell) : bool :=
  match c with CStr EmptyString => true | _ => false end.

Definition _convert_sheet_to_dict (df : DataFrame) : list (cell * pyval) :=
  if df_empty df then []
  else if (length df <? 4)%nat then []
  else
    let column_names := df_row df 0 in
    let type_definitions := df_row df 2 in
    foldl (λ result row,
             let key := cell_at row 0 in
             if isna key || is_empty_str key then result
             else dict_set key (VDict (row_item_data column_names type_definitions row)) result)
          [] (drop 3 df).

(** ** Code generation *)

Definition nl : string := str1 LF.
Definition triple_quote : string := String dquote (String dquote (str1 dquote)).

(** [str(key)] for a key that is not a string, [_escape_string] for one
    that is. *)
Definition key_str (k : cell) : string :=
  match k with
  | CStr s => _escape_string s
  | other => cell_str other
  end.

Fixpoint _dict_to_python_str (data : pyval) (indent : nat) : string :=
  match data with
  | VDict d =>
      match d with
      | [] => "{}"
      | _ =>
          "{" +:+ nl
          +:+ str_join ("," +:+ nl)
                (map (λ kv, spaces (indent + 2) +:+ key_str (fst kv) +:+ ": "
                            +:+ _dict_to_python_str (snd kv) (indent + 2)) d)
          +:+ nl +:+ spaces indent +:+ "}"
      end
  | VList l =>
      match l with
      | [] => "[]"
      | _ =>
          "[" +:+ nl
          +:+ str_join ("," +:+ nl)
                (map (λ item, spaces (indent + 2) +:+ _dict_to_python_str item (indent + 2)) l)
          +:+ nl +:+ spaces indent +:+ "]"
      end
  | VBool b => bool_str b
  | VStr s => _escape_string s
  | VNone => "None"
  | VNaN => "nan"
  | VInt z => pretty z
  | VFloat x => float_str x
  end.

(** [f"{config_name.upper()}_{sheet_name.upper()}_CONFIG"] *)
Definition sheet_var_name (config_name sheet_name : string) : string :=
  upper config_name +:+ "_" +:+ upper sheet_name +:+ "_CONFIG".

(** The three accessors generated for one sheet. *)
Definition access_function (config_name sheet_name : string) : string :=
  let cs := config_name +:+ "_" +:+ sheet_name in
  let var := sheet_var_name config_name sheet_name in
  nl
  +:+ "def get_" +:+ cs +:+ "_item(key: str) -> dict:" +:+ nl
  +:+ "    " +:+ triple_quote +:+ "获取" +:+ cs +:+ "配置项" +:+ triple_quote +:+ nl
  +:+ "    return " +:+ var +:+ ".get(key, {})" +:+ nl
  +:+ nl
  +:+ "def get_" +:+ cs +:+ "_all() -> dict:" +:+ nl
  +:+ "    " +:+ triple_quote +:+ "获取所有" +:+ cs +:+ "配置" +:+ triple_quote +:+ nl
  +:+ "    return " +:+ var +:+ nl
  +:+ nl
  +:+ "def get_" +:+ cs +:+ "_keys() -> list:" +:+ nl
  +:+ "    " +:+ triple_quote +:+ "获取所有" +:+ cs +:+ "键" +:+ triple_quote +:+ nl
  +:+ "    return list(" +:+ var +:+ ".keys())" +:+ nl.

(** The docstring that opens the generated module.  [now] is the value of
    [datetime.now().isoformat()] at the time of the call. *)
Definition code_header (config_name now excel_path : string) : string :=
  triple_quote +:+ nl
  +:+ "Auto-generated config file for " +:+ config_name +:+ nl
  +:+ "Generated at: " +:+ now +:+ nl
  +:+ "Source: " +:+ excel_path +:+ nl
  +:+ triple_quote +:+ nl +:+ nl.

Definition sheet_constant (config_name : string) (sheet : string * list (cell * pyval)) : string :=
  sheet_var_name config_name (fst sheet) +:+ " = "
  +:+ _dict_to_python_str (VDict (snd sheet)) 0 +:+ nl +:+ nl.

(** [data] maps sheet names to compiled sheets, in insertion order. *)
Definition _generate_python_code (config_name : string)
    (data : list (string * list (cell * pyval))) (excel_path : string) (now : string) : string :=
  let access_functions := map (λ sheet, access_function config_name (fst sheet)) data in
  let code := code_header config_name now excel_path in
  let code := foldl (λ code sheet, code +:+ sheet_constant config_name sheet) code data in
  let code := code +:+ "# 便捷访问函数" +:+ nl in
  foldl (λ code func, code +:+ func) code access_functions.

(** ** Validation *)

(** The error entries of a validation report.  The report's wording is not
    modelled, only which error it is and what it is about.  Warnings are
    logged and never looked at again: they are left out. *)
Inductive value_error :=
  | ControlCharacter        (* 包含控制字符 *)
  | NotAnInteger            (* 无法转换为整数 *)
  | NotAFloat               (* 无法转换为浮点数 *)
  | JsonParseFailed         (* JSON格式解析失败 *)
  | YamlParseFailed.        (* YAML格式解析失败 *)

Inductive sheet_error :=
  | SheetEmpty                                    (* Sheet为空 *)
  | TooFewRows                                    (* 至少需要4行 *)
  | TooFewColumns                                 (* 至少需要2列 *)
  | EmptyKeys (n : nat)                           (* 发现空键 *)
  | DuplicateKeys (ks : list cell)                (* 发现重复键 *)
  | KeyTypeMissing                                (* 键列缺少类型声明 *)
  | KeyTypeInvalid (key_type_str : string)        (* 键列类型不是有效类型 *)
  | ColumnError (col : cell) (row_num : nat) (e : value_error).

Inductive file_error :=
  | ReadFailed                                    (* pd.read_excel raised *)
  | FileEmpty                                     (* 文件为空 *)
  | SheetError (sheet_name : string) (e : sheet_error)
  | NoValidSheet.                                 (* 没有有效的sheet *)

(** The [errors] list of [_validate_value_by_type].  A string always encodes
    to UTF-8 in this embedding, so the encoding error does not arise; the
    [except] of the list branch guards a slice, a strip and a split, which
    do not raise. *)
Definition _validate_value_by_type (value : cell) (col_type : cell) : list value_error :=
  if isna value then []
  else
    let col_type := norm_type col_type in
    if String.eqb col_type "string" then
      match value with
      | CStr s =>
          if str_contains "000" s || str_contains "001" s || str_contains "002" s
          then [ControlCharacter] else []
      | _ => []
      end
    else if String.eqb col_type "int" then
      match py_int value with Some _ => [] | None => [NotAnInteger] end
    else if String.eqb col_type "float" then
      match py_float value with Some _ => [] | None => [NotAFloat] end
    else if String.eqb col_type "json" then
      match value with
      | CStr raw =>
          let value := strip raw in
          if startswith "{" value && endswith "}" value then
            match json_loads value with Some _ => [] | None => [JsonParseFailed] end
          else []
      | _ => []
      end
    else if String.eqb col_type "yaml" then
      match value with
      | CStr raw =>
          let value := strip raw in
          if startswith "-" value || str_contains ":" value then
            match yaml_safe_load value with Some _ => [] | None => [YamlParseFailed] end
          else []
      | _ => []
      end
    else [].

(** [keys.duplicated()]: the keys that occur again after their first
    occurrence. *)
Fixpoint duplicated (seen : list cell) (keys : list cell) : list cell :=
  match keys with
  | [] => []
  | k :: rest =>
      if bool_decide (k ∈ seen) then k :: duplicated seen rest
      else duplicated (k :: seen) rest
  end.

(** [.unique()]: each value once, in the order of first occurrence. *)
Fixpoint unique (seen : list cell) (l : list cell) : list cell :=
  match l with
  | [] => []
  | k :: rest =>
      if bool_decide (k ∈ seen) then unique seen rest
      else k :: unique (k :: seen) rest
  end.

(** [keys[keys.duplicated()].unique().tolist()] *)
Definition duplicate_keys (keys : list cell) : list cell :=
  unique [] (duplicated [] keys).

Definition valid_key_types : list string := ["string"; "int"].

(** The errors of one column: every non-empty cell is checked; the row
    number reported is the index label plus four. *)
Definition column_errors (data : list (list cell)) (type_definitions : list cell)
    (i : nat) (col : cell) : list sheet_error :=
  let col_type := col_type_at type_definitions i in
  mjoin ((λ '(idx, row), ColumnError col (idx + 4) <$>
                           _validate_value_by_type (cell_at row i) col_type)
         <$> enumerate 3 data).

(** The [errors] list of [_validate_sheet]; the checks that only warn (key
    spelling and length, type tags of the other columns, sparse data) are
    left out. *)
Definition _validate_sheet (df : DataFrame) : list sheet_error :=
  if df_empty df then [SheetEmpty]
  else if (length df <? 4)%nat then [TooFewRows]
  else if (df_ncols df <? 2)%nat then [TooFewColumns]
  else
    let column_names := df_row df 0 in
    let type_definitions := df_row df 2 in
    let data := drop 3 df in
    let keys := filter (λ k, isna k = false) ((λ row, cell_at row 0) <$> data) in
    let empty_keys := filter (λ k, strip (cell_str k) = EmptyString) keys in
    let dups := duplicate_keys keys in
    (match empty_keys with [] => [] | _ => [EmptyKeys (length empty_keys)] end)
    ++ (match dups with [] => [] | _ => [DuplicateKeys dups] end)
    ++ (match type_definitions !! O with
        | None | Some NaN => [KeyTypeMissing]
        | Some key_column_type =>
            let key_type_str := norm_type key_column_type in
            if bool_decide (key_type_str ∈ valid_key_types) then []
            else [KeyTypeInvalid key_type_str]
        end)
    ++ mjoin ((λ '(i, col), column_errors data type_definitions i col)
              <$> enumerate 1 (tail column_names)).

(** ** Files *)

Definition DESCRIBE_SHEET_NAME : string := ".DESC".

(** A source file: its modification time, its size, and the sheets
    [pd.read_excel(..., sheet_name=None)] returns for it, in order and under
    distinct names ([None] when reading raises). *)
Record ExcelFile := {
  xl_mtime : Z;
  xl_size : Z;
  xl_book : option (list (string * DataFrame));
}.

(** A generated module file. *)
Record CodeFile := {
  cf_mtime : Z;
  cf_text : string;
}.

Definition sheet_file_errors (sheet : string * DataFrame) : list file_error :=
  SheetError (fst sheet) <$> _validate_sheet (snd sheet).

(** The [errors] list of [validate_excel_file].  The file is read first, so
    that the existence test that follows cannot fail; the checks of the sheet
    names only warn. *)
Definition validate_excel_file (xf : ExcelFile) : list file_error :=
  match xl_book xf with
  | None => [ReadFailed]
  | Some excel_data =>
      if xl_size xf =? 0 then [FileEmpty]
      else
        let sheets := filter (λ sheet, fst sheet ≠ DESCRIBE_SHEET_NAME) excel_data in
        let valid_sheets := filter (λ sheet, _validate_sheet (snd sheet) = []) sheets in
        mjoin (sheet_file_errors <$> sheets)
        ++ (match valid_sheets with [] => [NoValidSheet] | _ => [] end)
  end.

Definition validate_data_before_conversion (xf : ExcelFile) : bool :=
  match validate_excel_file xf with
  | [] => true
  | _ => false
  end.

(** ** The converter and the manager: state *)

(** A loaded module: its data attributes by name. *)
Definition module : Type := gmap string pyval.

(** The directories, the persisted record file, and the dictionaries of the
    two global objects [excel_converter] and [config_manager].  Files are
    filed under their config name: [<excel_dir>/<name>.xlsx] and
    [<code_dir>/<name>_config.py]. *)
Record World := {
  excel_files : gmap string ExcelFile;
  code_files : gmap string CodeFile;
  times_file : option (gmap string (Z * Z));   (* dev/data/convert_times.json *)
  excel_modified_time : gmap string Z;
  module_modified_time : gmap string Z;
  loaded_modules : gmap string module;
  last_modified : gmap string Z;
}.

(** What a call finds around it: the clock reading of
    [datetime.now().isoformat()], the modification time a file written now
    receives, and whether the module file and the record file can be opened
    for writing (when [open] raises, the file is as it was). *)
Record Env := {
  env_now : string;
  env_clock : Z;
  env_code_writable : bool;
  env_times_writable : bool;
}.

Definition excel_dir : string := "dev/data/excel".
Definition code_dir : string := "dev/data/code".

Definition excel_path (stem : string) : string := excel_dir +:+ "/" +:+ stem +:+ ".xlsx".
Definition code_path (stem : string) : string := code_dir +:+ "/" +:+ stem +:+ "_config.py".

(** ** [_save_modified_times] *)

Definition combined_data (w : World) : gmap string (Z * Z) :=
  map_imap (λ config_name excel,
              Some (excel, default 0 (module_modified_time w !! config_name)))
           (excel_modified_time w).

(** A failure to write is caught and logged. *)
Definition _save_modified_times (env : Env) (w : World) : World :=
  if env_times_writable env then
    {| excel_files := excel_files w;
       code_files := code_files w;
       times_file := Some (combined_data w);
       excel_modified_time := excel_modified_time w;
       module_modified_time := module_modified_time w;
       loaded_modules := loaded_modules w;
       last_modified := last_modified w |}
  else w.

(** ** [convert_excel_file] *)

(** The loop over the sheets: the instructions sheet, empty sheets and
    sheets that compile to nothing are left out. *)
Definition convert_sheets (excel_data : list (string * DataFrame))
    : list (string * list (cell * pyval)) :=
  foldl (λ converted_data sheet,
           if decide (fst sheet = DESCRIBE_SHEET_NAME) then converted_data
           else if df_empty (snd sheet) then converted_data
           else match _convert_sheet_to_dict (snd sheet) with
                | [] => converted_data
                | sheet_data => dict_set (fst sheet) sheet_data converted_data
                end)
        [] excel_data.

(** The module file is written; the recorded times follow. *)
Definition write_code_file (env : Env) (w : World) (stem code : string) : World :=
  {| excel_files := excel_files w;
     code_files := <[stem := {| cf_mtime := env_clock env; cf_text := code |}]> (code_files w);
     times_file := times_file w;
     excel_modified_time := excel_modified_time w;
     module_modified_time := module_modified_time w;
     loaded_modules := loaded_modules w;
     last_modified := last_modified w |}.

Definition record_times (w : World) (stem : string) (excel_mtime : Z) : World :=
  {| excel_files := excel_files w;
     code_files := code_files w;
     times_file := times_file w;
     excel_modified_time := <[stem := excel_mtime]> (excel_modified_time w);
     module_modified_time :=
       <[stem := match code_files w !! stem with Some cf => cf_mtime cf | None => 0 end]>
         (module_modified_time w);
     loaded_modules := loaded_modules w;
     last_modified := last_modified w |}.

(** [convert_excel_file(excel_dir / f"{stem}.xlsx")]: the returned path, or
    [None], and the state after the call.  Every exception is caught by the
    function's own handler, which returns [None]. *)
Definition convert_excel_file (env : Env) (w : World) (stem : string) : option string * World :=
  match excel_files w !! stem with
  | None => (None, w)                       (* stat() raises *)
  | Some xf =>
      let excel_mtime := xl_mtime xf in
      let module_exists := bool_decide (is_Some (code_files w !! stem)) in
      let module_mtime :=
        match code_files w !! stem with Some cf => cf_mtime cf | None => 0 end in
      let last_excel_mtime := default 0 (excel_modified_time w !! stem) in
      let last_module_mtime := default 0 (module_modified_time w !! stem) in
      let excel_changed := (last_excel_mtime =? 0) || (excel_mtime >? last_excel_mtime) in
      let module_changed := negb module_exists || (module_mtime >? last_module_mtime) in
      if negb excel_changed && negb module_changed then (None, w)
      else if negb (validate_data_before_conversion xf) then (None, w)   (* ValueError *)
      else
        match xl_book xf with
        | None => (None, w)                 (* pd.read_excel raises *)
        | Some excel_data =>
            match convert_sheets excel_data with
            | [] => (None, w)
            | converted_data =>
                let code :=
                  _generate_python_code stem converted_data (excel_path stem) (env_now env) in
                if env_code_writable env then
                  let w := write_code_file env w stem code in
                  let w := record_times w stem excel_mtime in
                  let w := _save_modified_times env w in
                  (Some (code_path stem), w)
                else (None, w)              (* open() raises *)
            end
        end
  end.

(** ** [ConfigManager] *)

Definition set_loaded (w : World) (config_name : string) (m : module) (mtime : Z) : World :=
  {| excel_files := excel_files w;
     code_files := code_files w;
     times_file := times_file w;
     excel_modified_time := excel_modified_time w;
     module_modified_time := module_modified_time w;
     loaded_modules := <[config_name := m]> (loaded_modules w);
     last_modified := <[config_name := mtime]> (last_modified w) |}.

(** [cached] tells whether the module file is no newer than the last load. *)
Definition load_is_cached (w : World) (config_name : string) (cf : CodeFile) : bool :=
  match last_modified w !! config_name with
  | Some last => cf_mtime cf <=? last
  | None => false
  end.

Definition _load_config_module (w : World) (config_name : string) (cf : CodeFile)
    : option module * World :=
  if load_is_cached w config_name cf then (loaded_modules w !! config_name, w)
  else
    match exec_module (cf_text cf) with
    | Some m => (Some m, set_loaded w config_name m (cf_mtime cf))
    | None => (None, w)
    end.

(** Whether [reload_config] calls the converter. *)
Definition excel_is_newer (w : World) (config_name : string) : bool :=
  match excel_files w !! config_name with
  | None => false
  | Some xf =>
      match excel_modified_time w !! config_name with
      | None => true
      | Some recorded => xl_mtime xf >? recorded
      end
  end.

(** [reload_config(config_name)] with [check_excel_modified] left at its
    default.  The result of the conversion is not looked at. *)
Definition reload_config (env : Env) (w : World) (config_name : string) : bool * World :=
  let w := if excel_is_newer w config_name
           then snd (convert_excel_file env w config_name) else w in
  match code_files w !! config_name with
  | Some cf =>
      let '(m, w) := _load_config_module w config_name cf in
      (bool_decide (is_Some m), w)
  | None => (false, w)
  end.

(** [get_config(config_name)] with [auto_reload] left at its default. *)
Definition get_config (env : Env) (w : World) (config_name : string) : option module * World :=
  let w := snd (reload_config env w config_name) in
  (loaded_modules w !! config_name, w).

(** [None] is Python's [None]. *)
Definition get_config_sheet (env : Env) (w : World) (config_name sheet_name : string)
    : option pyval * World :=
  let '(m, w) := get_config env w config_name in
  (m ≫= (λ m, m !! sheet_var_name config_name sheet_name), w).

(** Python's truth value of a compiled value. *)
Definition truthy (v : pyval) : bool :=
  match v with
  | VNone => false
  | VNaN => true
  | VStr s => negb (String.eqb s EmptyString)
  | VInt z => negb (z =? 0)
  | VFloat x => float_truthy x
  | VBool b => b
  | VList l => match l with [] => false | _ => true end
  | VDict d => match d with [] => false | _ => true end
  end.

Inductive outcome :=
  | Returns (v : pyval)
  | Raises.                 (* AttributeError: the sheet object has no [get] *)

(** [config_sheet and config_sheet.get(key)] *)
Definition get_config_value (env : Env) (w : World) (config_name sheet_name : string)
    (key : cell) : outcome * World :=
  let '(config_sheet, w) := get_config_sheet env w config_name sheet_name in
  match config_sheet with
  | None => (Returns VNone, w)
  | Some sheet =>
      if truthy sheet then
        match sheet with
        | VDict d => (Returns (default VNone (dict_get key d)), w)
        | _ => (Raises, w)
        end
      else (Returns sheet, w)
  end.

(** ** [check_all_configs_up_to_date] *)

Inductive config_status :=
  | StatusUnknown
  | StatusMissingCodeFile
  | StatusUpToDate
  | StatusOutdated
  | StatusOrphanedCodeFile.

#[global] Instance config_status_eq_dec : EqDecision config_status.
Proof. solve_decision. Defined.

(** One entry of [details]: the two paths, the status, and the [up_to_date]
    flag when the entry has one (the entry of an orphan has none).  The time
    stamps copied into an entry are left out. *)
Record Detail := {
  d_excel_file : option string;
  d_code_file : option string;
  d_status : config_status;
  d_up_to_date : option bool;
}.

Record Report := {
  all_up_to_date : bool;
  total_configs : nat;
  up_to_date_configs : nat;
  outdated_configs : list string;
  missing_excel_files : list string;
  missing_code_files : list string;
  details : gmap string Detail;
}.

(** [name.startswith("~$") or name.startswith(".~")] on [<stem>.xlsx] *)
Definition is_temp_file (stem : string) : bool :=
  String.prefix "~$" (stem +:+ ".xlsx") || String.prefix ".~" (stem +:+ ".xlsx").

(** The body of the loop over the source files. *)
Definition check_excel_file (w : World) (result : Report) (config_name : string)
    (xf : ExcelFile) : Report :=
  match code_files w !! config_name with
  | None =>
      {| all_up_to_date := false;
         total_configs := total_configs result;
         up_to_date_configs := up_to_date_configs result;
         outdated_configs := outdated_configs result;
         missing_excel_files := missing_excel_files result;
         missing_code_files := missing_code_files result ++ [config_name];
         details := <[config_name := {| d_excel_file := Some (excel_path config_name);
                                        d_code_file := None;
                                        d_status := StatusMissingCodeFile;
                                        d_up_to_date := Some false |}]> (details result) |}
  | Some cf =>
      let excel_mtime := xl_mtime xf in
      let code_mtime := cf_mtime cf in
      let last_excel_mtime := default 0 (excel_modified_time w !! config_name) in
      let last_module_mtime := default 0 (module_modified_time w !! config_name) in
      let last_reload_time := default 0 (last_modified w !! config_name) in
      let excel_changed := (last_excel_mtime =? 0) || (excel_mtime >? last_excel_mtime) in
      let module_changed := code_mtime >? last_module_mtime in
      let reload_needed := (last_reload_time =? 0) || (code_mtime >? last_reload_time) in
      if negb excel_changed && negb module_changed && negb reload_needed then
        {| all_up_to_date := all_up_to_date result;
           total_configs := total_configs result;
           up_to_date_configs := S (up_to_date_configs result);
           outdated_configs := outdated_configs result;
           missing_excel_files := missing_excel_files result;
           missing_code_files := missing_code_files result;
           details := <[config_name := {| d_excel_file := Some (excel_path config_name);
                                          d_code_file := Some (code_path config_name);
                                          d_status := StatusUpToDate;
                                          d_up_to_date := Some true |}]> (details result) |}
      else
        {| all_up_to_date := false;
           total_configs := total_configs result;
           up_to_date_configs := up_to_date_configs result;
           outdated_configs := outdated_configs result ++ [config_name];
           missing_excel_files := missing_excel_files result;
           missing_code_files := missing_code_files result;
           details := <[config_name := {| d_excel_file := Some (excel_path config_name);
                                          d_code_file := Some (code_path config_name);
                                          d_status := StatusOutdated;
                                          d_up_to_date := Some false |}]> (details result) |}
  end.

(** The body of the loop over the generated files. *)
Definition check_code_file (w : World) (result : Report) (config_name : string) : Report :=
  match excel_files w !! config_name with
  | Some _ => result
  | None =>
      {| all_up_to_date := false;
         total_configs := total_configs result;
         up_to_date_configs := up_to_date_configs result;
         outdated_configs := outdated_configs result;
         missing_excel_files := missing_excel_files result;
         missing_code_files := missing_code_files result;
         details := <[config_name := {| d_excel_file := None;
                                        d_code_file := Some (code_path config_name);
                                        d_status := StatusOrphanedCodeFile;
                                        d_up_to_date := None |}]> (details result) |}
  end.

(** The source files [glob("*.xlsx")] yields, temporary files skipped. *)
Definition listed_excel_files (w : World) : list (string * ExcelFile) :=
  filter (λ f, is_temp_file (fst f) = false) (map_to_list (excel_files w)).

Definition check_all_configs_up_to_date (w : World) : Report :=
  let excel_files := listed_excel_files w in
  let result :=
    {| all_up_to_date := true;
       total_configs := length excel_files;
       up_to_date_configs := 0;
       outdated_configs := [];
       missing_excel_files := [];
       missing_code_files := [];
       details := ∅ |} in
  let result :=
    foldl (λ result f, check_excel_file w result (fst f) (snd f)) result excel_files in
  foldl (λ result f, check_code_file w result (fst f)) result (map_to_list (code_files w)).

(** ** More of the converter and of the manager *)

(** [s.count(c)] for a one-character [c]. *)
Fixpoint str_count (c : ascii) (s : string) : nat :=
  match s with
  | EmptyString => O
  | String a s' => if Ascii.eqb a c then S (str_count c s') else str_count c s'
  end.

(** [s.endswith(suffix)] *)
Definition str_endswith (suffix s : string) : bool :=
  (String.length suffix <=? String.length s)%nat
  && String.eqb (substring (String.length s - String.length suffix)
                   (String.length suffix) s) suffix.

(** [s[:-k]] for a positive [k]. *)
Definition str_drop_end (k : nat) (s : string) : string :=
  substring 0 (String.length s - k) s.

(** [s[k:]] *)
Definition str_drop (k : nat) (s : string) : string :=
  substring k (String.length s - k) s.

(** *** [_load_modified_times] and the start of a process *)

(** The record file is read as [_save_modified_times] wrote it, one pair of
    times per config ([times_file] is its parsed content); each entry
    overwrites the two dictionaries.  A file that does not parse is logged
    and skipped, like a missing one. *)
Definition _load_modified_times (w : World) : World :=
  match times_file w with
  | None => w
  | Some data =>
      {| excel_files := excel_files w;
         code_files := code_files w;
         times_file := times_file w;
         excel_modified_time := (fst <$> data) ∪ excel_modified_time w;
         module_modified_time := (snd <$> data) ∪ module_modified_time w;
         loaded_modules := loaded_modules w;
         last_modified := last_modified w |}
  end.

(** A process starts: the two global objects are created with empty
    dictionaries, and the converter loads the record file. *)
Definition process_start (w : World) : World :=
  _load_modified_times
    {| excel_files := excel_files w;
       code_files := code_files w;
       times_file := times_file w;
       excel_modified_time := ∅;
       module_modified_time := ∅;
       loaded_modules := ∅;
       last_modified := ∅ |}.

(** *** [convert_all_excel_files] *)

(** Every call of the converter finds its own surroundings: [envs] gives
    them by config name. *)
Definition convert_all_step (envs : string → Env) (acc : gmap string string * World)
    (f : string * ExcelFile) : gmap string string * World :=
  let result := convert_excel_file (envs (fst f)) (snd acc) (fst f) in
  (match fst result with
   | Some path => <[fst f := path]> (fst acc)
   | None => fst acc
   end, snd result).

Definition convert_all_excel_files (envs : string → Env) (w : World)
    : gmap string string * World :=
  foldl (convert_all_step envs) (∅, w) (listed_excel_files w).

(** *** [reload_all_configs], [list_configs], [list_sheets] *)

(** The stem of a generated file, and the config name read back from it:
    [config_name[:-7]] when the stem ends with [_config]. *)
Definition code_stem (config_name : string) : string := config_name +:+ "_config".

Definition config_name_of_stem (stem : string) : string :=
  if str_endswith "_config" stem then str_drop_end 7 stem else stem.

Definition list_configs (w : World) : list string :=
  (λ f, config_name_of_stem (code_stem (fst f))) <$> map_to_list (code_files w).

(** [reload_all_configs()] with both flags left at their defaults: only
    the configs that reloaded are entered. *)
Definition reload_all_step (envs : string → Env) (acc : gmap string bool * World)
    (f : string * CodeFile) : gmap string bool * World :=
  let config_name := config_name_of_stem (code_stem (fst f)) in
  let result := reload_config (envs config_name) (snd acc) config_name in
  (if fst result then <[config_name := true]> (fst acc) else fst acc, snd result).

Definition reload_all_configs (envs : string → Env) (w : World) : gmap string bool * World :=
  foldl (reload_all_step envs) (∅, w) (map_to_list (code_files w)).

(** [dir(module)]: the attribute names in order.  Of a module's names only
    those of its data attributes are kept here; the others (its functions,
    the names with two underscores around) do not end with [_CONFIG] in a
    generated module, so that [list_sheets] passes over them. *)
Definition dir (m : module) : list string :=
  merge_sort String.le (map_to_list m).*1.

(** The body of the loop of [list_sheets]. *)
Definition sheet_name_of_attr (config_name attr_name : string) : option string :=
  if str_endswith "_CONFIG" attr_name && String.prefix (upper config_name) attr_name then
    let prefix := upper config_name +:+ "_" in
    let sheet_name :=
      if String.prefix prefix attr_name
      then str_drop (String.length prefix) attr_name else attr_name in
    Some (if str_endswith "_CONFIG" sheet_name then str_drop_end 7 sheet_name
          else sheet_name)
  else None.

Definition list_sheets (env : Env) (w : World) (config_name : string) : list string * World :=
  let '(m, w) := get_config env w config_name in
  match m with
  | None => ([], w)
  | Some m => (omap (sheet_name_of_attr config_name) (dir m), w)
  end.

(** *** The start of the application *)

(** [startup] in [main.py], after the database is set up: all source files
    are converted, all configs are reloaded, and the aggregate flag of the
    global check decides whether the process goes on or exits. *)
Definition startup (envs envs' : string → Env) (w : World) : bool * World :=
  let w := snd (convert_all_excel_files envs w) in
  let w := snd (reload_all_configs envs' w) in
  (all_up_to_date (check_all_configs_up_to_date w), w).

(** ** Notions the properties are stated with *)

(** The staleness record of the converter: its two dictionaries and the
    record file. *)
Definition staleness (w : World)
    : gmap string Z * gmap string Z * option (gmap string (Z * Z)) :=
  (excel_modified_time w, module_modified_time w, times_file w).


(** The [details] entry of a generated file without a source file. *)
Definition orphan_detail (config_name : string) : Detail :=
  {| d_excel_file := None;
     d_code_file := Some (code_path config_name);
     d_status := StatusOrphanedCodeFile;
     d_up_to_date := None |}.


(** *** Notions for the further properties *)

(** [data_df[key_column].dropna()]: the key cells of the data rows, empty
    cells dropped. *)
Definition sheet_keys (df : DataFrame) : list cell :=
  filter (λ k, isna k = false) ((λ row, cell_at row 0) <$> drop 3 df).

(** The data rows [_convert_sheet_to_dict] does not skip. *)
Definition keyed_rows (df : DataFrame) : list (list cell) :=
  filter (λ row, isna (cell_at row 0) || is_empty_str (cell_at row 0) = false) (drop 3 df).

(** The entry [_convert_sheet_to_dict] makes for a column of a row, and for
    a row. *)
Definition column_entry (type_definitions row : list cell) (p : nat * cell) : cell * pyval :=
  (snd p, _process_value_by_type (cell_at row (fst p)) (col_type_at type_definitions (fst p))).

Definition row_entry (df : DataFrame) (row : list cell) : cell * pyval :=
  (cell_at row 0, VDict (row_item_data (df_row df 0) (df_row df 2) row)).

(** The loop of [_convert_sheet_to_dict], started from any dictionary. *)
Definition sheet_loop (df : DataFrame) (d : list (cell * pyval)) (rows : list (list cell))
    : list (cell * pyval) :=
  foldl (λ result row,
           let key := cell_at row 0 in
           if isna key || is_empty_str key then result
           else dict_set key (VDict (row_item_data (df_row df 0) (df_row df 2) row)) result)
        d rows.

(** What holds of the results and of the state while the files of [seen]
    are converted one after the other. *)
Definition convert_all_inv (envs : string → Env) (w : World) (seen : list string)
    (acc : gmap string string * World) : Prop :=
  excel_files (snd acc) = excel_files w ∧
  loaded_modules (snd acc) = loaded_modules w ∧
  last_modified (snd acc) = last_modified w ∧
  (∀ c path, fst acc !! c = Some path →
     path = code_path c ∧ c ∈ seen ∧
     ∃ cf, code_files (snd acc) !! c = Some cf ∧ cf_mtime cf = env_clock (envs c)) ∧
  (∀ c, c ∉ seen →
     code_files (snd acc) !! c = code_files w !! c ∧
     excel_modified_time (snd acc) !! c = excel_modified_time w !! c ∧
     module_modified_time (snd acc) !! c = module_modified_time w !! c).

(** What holds of the results and of the state while the configs of [seen]
    are reloaded one after the other. *)
Definition reload_all_inv (w : World) (seen : list string)
    (acc : gmap string bool * World) : Prop :=
  excel_files (snd acc) = excel_files w ∧
  (∀ c b, fst acc !! c = Some b →
     b = true ∧ c ∈ seen ∧ is_Some (loaded_modules (snd acc) !! c)) ∧
  (∀ c, is_Some (loaded_modules w !! c) → is_Some (loaded_modules (snd acc) !! c)) ∧
  (∀ c, excel_files w !! c = None → code_files (snd acc) !! c = code_files w !! c).

(** The two loops of the check, started from any report. *)
Definition check_loop_excel (w : World) (result : Report) (l : list (string * ExcelFile))
    : Report :=
  foldl (λ result f, check_excel_file w result (fst f) (snd f)) result l.

Definition check_loop_code (w : World) (result : Report) (l : list (string * CodeFile))
    : Report :=
  foldl (λ result f, check_code_file w result (fst f)) result l.

(** The status [check_all_configs_up_to_date] gives a source file. *)
Definition source_status (w : World) (config_name : string) (xf : ExcelFile) : config_status :=
  match code_files w !! config_name with
  | None => StatusMissingCodeFile
  | Some cf =>
      let last_excel_mtime := default 0 (excel_modified_time w !! config_name) in
      let last_module_mtime := default 0 (module_modified_time w !! config_name) in
      let last_reload_time := default 0 (last_modified w !! config_name) in
      if negb ((last_excel_mtime =? 0) || (xl_mtime xf >? last_excel_mtime))
         && negb (cf_mtime cf >? last_module_mtime)
         && negb ((last_reload_time =? 0) || (cf_mtime cf >? last_reload_time))
      then StatusUpToDate else StatusOutdated
  end.

(** A time of last load is kept only for a module that is loaded. *)
Definition cache_coherent (w : World) : Prop :=
  ∀ c, is_Some (last_modified w !! c) → is_Some (loaded_modules w !! c).

(** What the converter looks at for a config: the two files and the two
    recorded times. *)
Definition local_state (w : World) (c : string)
    : option ExcelFile * option CodeFile * option Z * option Z :=
  (excel_files w !! c, code_files w !! c, excel_modified_time w !! c,
   module_modified_time w !! c).

(** The module file [cf] of a source file is there and, by the record,
    neither of the two files changed since it was written. *)
Definition compiled (w : World) (c : string) (xf : ExcelFile) (cf : CodeFile) : Prop :=
  code_files w !! c = Some cf ∧
  (∃ e, excel_modified_time w !! c = Some e ∧ e ≠ 0 ∧ xl_mtime xf ≤ e) ∧
  cf_mtime cf ≤ default 0 (module_modified_time w !! c) ∧
  cf_mtime cf ≠ 0.

(** A compiled module file that loads, and was not last loaded at time
    zero. *)
Definition loadable (w : World) (c : string) (xf : ExcelFile) : Prop :=
  ∃ cf, compiled w c xf cf ∧ is_Some (exec_module (cf_text cf)) ∧
        ∀ t, last_modified w !! c = Some t → t ≠ 0.

End Converter.

(** Bracket syntax gone wrong: exactly one of the two brackets is there. *)
Definition bracket_malformed (value : string) : bool :=
  xorb (startswith "[" value) (endswith "]" value).

(** ** Worked examples: a runtime, two sheets, four states *)

(** Integers stand in for floats: no example has a float cell. *)
Definition example_float : PyFloat := {|
  pyfloat := Z;
  float_zero := 0;
  float_str := pretty;
  float_truthy := λ x, negb (x =? 0);
  float_to_int := Some;
  float_of_int := Some;
  float_of_str := λ _, None;
|}.

Section Examples.
#[local] Existing Instance example_float.

(** The sheet of intent keywords: names, descriptions, types, two rows.  The
    second row has no [Name]. *)
Definition greeting_sheet : DataFrame :=
  [ [CStr "id"; CStr "Name"; CStr "Keywords"];
    [CStr "key"; CStr "display name"; CStr "trigger words"];
    [CStr "string"; CStr "string"; CStr "list"];
    [CStr "greet"; CStr "Greeting"; CStr "[你好, 您好]"];
    [CStr "bye"; NaN; CStr "[再见]"] ].

Definition greeting_data : list (cell * pyval) :=
  [ (CStr "greet", VDict [ (CStr "Name", VStr "Greeting");
                           (CStr "Keywords", VList [VStr "你好"; VStr "您好"]) ]);
    (CStr "bye", VDict [ (CStr "Name", VNone);
                         (CStr "Keywords", VList [VStr "再见"]) ]) ].

(** The module generated for it at the turn of a year. *)
Definition greeting_artifact : string :=
  _generate_python_code "nlp" [("main", greeting_data)] (excel_path "nlp")
    "2025-01-01T00:00:00".

(** No text parses as JSON or YAML (no example has such a cell); the one
    module text that loads is [greeting_artifact]. *)
Definition example_libs : PyLibs := {|
  json_loads := λ _, None;
  yaml_safe_load := λ _, None;
  exec_module := λ text,
    if decide (text = greeting_artifact)
    then Some {[ "NLP_MAIN_CONFIG" := VDict greeting_data ]}
    else None;
|}.

#[local] Existing Instance example_libs.

(** A sheet whose key column is declared [float]. *)
Definition float_key_sheet : DataFrame :=
  [ [CStr "id"; CStr "Name"];
    [CStr "key"; CStr "display name"];
    [CStr "float"; CStr "string"];
    [CInt 1; CStr "one"];
    [CInt 2; CStr "two"] ].

Definition example_env : Env :=
  {| env_now := "2025-06-01T12:00:00";
     env_clock := 300;
     env_code_writable := true;
     env_times_writable := true |}.

Definition greeting_code_file : CodeFile :=
  {| cf_mtime := 100; cf_text := greeting_artifact |}.

(** The source file carries the epoch as its modification time, and the
    record says so. *)
Definition epoch_world : World :=
  {| excel_files := {[ "nlp" := {| xl_mtime := 0; xl_size := 4096;
                                   xl_book := Some [("main", greeting_sheet)] |} ]};
     code_files := {[ "nlp" := greeting_code_file ]};
     times_file := Some {[ "nlp" := (0, 100) ]};
     excel_modified_time := {[ "nlp" := 0 ]};
     module_modified_time := {[ "nlp" := 100 ]};
     loaded_modules := ∅;
     last_modified := ∅ |}.

(** The same, compiled at time 50 and left alone since. *)
Definition settled_world : World :=
  {| excel_files := {[ "nlp" := {| xl_mtime := 50; xl_size := 4096;
                                   xl_book := Some [("main", greeting_sheet)] |} ]};
     code_files := {[ "nlp" := greeting_code_file ]};
     times_file := Some {[ "nlp" := (50, 100) ]};
     excel_modified_time := {[ "nlp" := 50 ]};
     module_modified_time := {[ "nlp" := 100 ]};
     loaded_modules := ∅;
     last_modified := ∅ |}.

(** The source was edited at time 200 into a sheet that fails validation;
    the module generated before the edit is still there. *)
Definition broken_source_world : World :=
  {| excel_files := {[ "nlp" := {| xl_mtime := 200; xl_size := 4096;
                                   xl_book := Some [("main", float_key_sheet)] |} ]};
     code_files := {[ "nlp" := greeting_code_file ]};
     times_file := Some {[ "nlp" := (50, 100) ]};
     excel_modified_time := {[ "nlp" := 50 ]};
     module_modified_time := {[ "nlp" := 100 ]};
     loaded_modules := ∅;
     last_modified := ∅ |}.

(** The source file is gone, the generated module is not. *)
Definition orphan_world : World :=
  {| excel_files := ∅;
     code_files := {[ "nlp" := greeting_code_file ]};
     times_file := Some {[ "nlp" := (50, 100) ]};
     excel_modified_time := {[ "nlp" := 50 ]};
     module_modified_time := {[ "nlp" := 100 ]};
     loaded_modules := ∅;
     last_modified := ∅ |}.

(** *** Further examples *)


(** The clock at the turn of the year, when [greeting_artifact] was
    written. *)
Definition new_year_env : Env :=
  {| env_now := "2025-01-01T00:00:00";
     env_clock := 100;
     env_code_writable := true;
     env_times_writable := true |}.

(** A source file never compiled: no module file, no record, nothing
    loaded. *)
Definition fresh_world : World :=
  {| excel_files := {[ "nlp" := {| xl_mtime := 50; xl_size := 4096;
                                   xl_book := Some [("main", greeting_sheet)] |} ]};
     code_files := ∅;
     times_file := None;
     excel_modified_time := ∅;
     module_modified_time := ∅;
     loaded_modules := ∅;
     last_modified := ∅ |}.

End Examples.

(** * Properties *)

Section Properties.
Context `{PyFloat} `{!PyLibs}.

(** ** Strings *)

Lemma str_app_cons (x : ascii) (a b : string) :
  String x a +:+ b = String x (a +:+ b).
Proof. reflexivity. Qed.

Lemma str_app_assoc (a b c : string) : (a +:+ b) +:+ c = a +:+ (b +:+ c).
Proof. induction a as [|x a IH]; [done|]. by rewrite !str_app_cons, IH. Qed.

Lemma str_app_nil_r (a : string) : a +:+ EmptyString = a.
Proof. induction a as [|x a IH]; [done|]. by rewrite str_app_cons, IH. Qed.

Lemma length_str_split_contains (c : ascii) (s : string) :
  str_contains c s = true → (2 ≤ length (str_split c s))%nat.
Proof.
  induction s as [|a s IH]; simpl; [done|].
  destruct (Ascii.eqb a c); simpl.
  - intros _. destruct s; simpl; [lia|].
    destruct (Ascii.eqb _ _); simpl; [lia|]. destruct (str_split c s); simpl; lia.
  - intros Hc. specialize (IH Hc). destruct (str_split c s); simpl in *; lia.
Qed.

(** ** Insertion-ordered dictionaries *)

Lemma dict_get_set_eq {K V} `{EqDecision K} (k : K) (v : V) (d : list (K * V)) :
  dict_get k (dict_set k v d) = Some v.
Proof.
  induction d as [|[k' v'] d IH]; simpl.
  - by rewrite decide_True.
  - destruct (decide (k' = k)) as [->|Hne]; simpl.
    + by rewrite decide_True.
    + by rewrite decide_False.
Qed.

Lemma dict_get_set_ne {K V} `{EqDecision K} (k k' : K) (v : V) (d : list (K * V)) :
  k' ≠ k → dict_get k (dict_set k' v d) = dict_get k d.
Proof.
  intros Hne. induction d as [|[k'' v''] d IH]; simpl.
  - by rewrite decide_False.
  - destruct (decide (k'' = k')) as [->|Hne']; simpl.
    + by rewrite !decide_False.
    + destruct (decide (k'' = k)); [done|]. apply IH.
Qed.

Lemma lookup_enumerate {A} (l : list A) (n i : nat) :
  enumerate n l !! i = (λ x, ((n + i)%nat, x)) <$> l !! i.
Proof.
  revert n i. induction l as [|x l IH]; intros n [|i]; simpl; [done..| |].
  - by rewrite Nat.add_0_r.
  - rewrite IH. by rewrite Nat.add_succ_r.
Qed.

Lemma enumerate_app {A} (l1 l2 : list A) (n : nat) :
  enumerate n (l1 ++ l2) = enumerate n l1 ++ enumerate (n + length l1) l2.
Proof.
  revert n. induction l1 as [|x l1 IH]; intros n; simpl.
  - by rewrite Nat.add_0_r.
  - rewrite IH. by rewrite Nat.add_succ_r.
Qed.

(** ** The code generator *)

(** Appending in a loop only ever extends the text the loop started from. *)
Lemma foldl_append_init {A} (f : A → string) (l : list A) (init : string) :
  foldl (λ code x, code +:+ f x) init l
  = init +:+ foldl (λ code x, code +:+ f x) EmptyString l.
Proof.
  revert init. induction l as [|x l IH]; intros init; simpl.
  - by rewrite str_app_nil_r.
  - rewrite IH. rewrite (IH (EmptyString +:+ f x)).
    by rewrite str_app_assoc.
Qed.

(** C1, as amended: the generated text depends on the clock and on nothing
    else besides its arguments.  For every config name, compiled data and
    source path there are two fixed texts such that, whatever the clock reads,
    the generated module is the first text, the clock reading, and the second
    text: two invocations on the same input agree everywhere but in the
    time stamp of the header. *)
Theorem generate_python_code_fixed_around_clock
    (config_name : string) (data : list (string * list (cell * pyval)))
    (excel_path : string) :
  ∃ before after : string, ∀ now : string,
    _generate_python_code config_name data excel_path now
    = before +:+ now +:+ after.
Proof.
  eexists (triple_quote +:+ nl +:+ "Auto-generated config file for "
           +:+ config_name +:+ nl +:+ "Generated at: "), _.
  intros now. unfold _generate_python_code, code_header.
  rewrite (foldl_append_init (λ func, func)).
  rewrite (foldl_append_init (sheet_constant config_name)).
  rewrite !str_app_assoc. reflexivity.
Qed.

(** ** String escaping *)

Lemma str_replace_app (c : ascii) (r a b : string) :
  str_replace c r (a +:+ b) = str_replace c r a +:+ str_replace c r b.
Proof.
  induction a as [|x a IH]; [done|]. rewrite str_app_cons. simpl.
  destruct (Ascii.eqb x c).
  - by rewrite IH, str_app_assoc.
  - by rewrite IH.
Qed.

Lemma escape_string_body (s : string) :
  _escape_string s = String dquote (escape_body s +:+ str1 dquote).
Proof. reflexivity. Qed.

Lemma escape_body_app (a b : string) :
  escape_body (a +:+ b) = escape_body a +:+ escape_body b.
Proof. unfold escape_body. by rewrite !str_replace_app. Qed.

Lemma escape_body_cons (c : ascii) (s : string) :
  escape_body (String c s) = escape_body (str1 c) +:+ escape_body s.
Proof. apply (escape_body_app (str1 c) s). Qed.

(** What the lexer makes of one escaped character that is not a quote. *)
Lemma lex_escaped_char (c : ascii) (rest : string) :
  c ≠ dquote →
  lex_literal true (escape_body (str1 c) +:+ rest)
  = if Ascii.eqb c "000" then LitOther else lit_cons c (lex_literal true rest).
Proof.
  intros Hq.
  destruct c as [[] [] [] [] [] [] [] []]; try reflexivity; by destruct Hq.
Qed.

(** And of an escaped quote: a backslash, and the end of the literal. *)
Lemma lex_escaped_quote (rest : string) :
  lex_literal true (escape_body (str1 dquote) +:+ rest)
  = lit_cons backslash (lex_literal false rest).
Proof. reflexivity. Qed.

(** Without a double quote (and without a null character, which a Python
    source may not hold) the literal reads back as the string: backslashes,
    line feeds, carriage returns and tabs are restored. *)
Lemma escape_string_roundtrip_without_quote (s : string) :
  str_contains dquote s = false →
  str_contains "000" s = false →
  eval_string_literal (_escape_string s) = LitOk s.
Proof.
  rewrite escape_string_body. simpl.
  induction s as [|c s IH]; [done|]. simpl.
  intros [Hc Hs]%orb_false_elim [Hz Hs']%orb_false_elim.
  rewrite escape_body_cons, str_app_assoc, lex_escaped_char.
  - rewrite Hz, IH by done. reflexivity.
  - by apply Ascii.eqb_neq.
Qed.

(** Whatever a literal that starts with the escaped form of [pre] denotes
    starts with [pre]. *)
Lemma lex_escaped_prefix (pre rest t : string) :
  str_contains dquote pre = false →
  lex_literal true (escape_body pre +:+ rest) = LitOk t →
  ∃ t', t = pre +:+ t' ∧ lex_literal true rest = LitOk t'.
Proof.
  revert t. induction pre as [|c pre IH]; intros t; simpl.
  - intros _ Hlex. by exists t.
  - intros [Hc Hs]%orb_false_elim.
    rewrite escape_body_cons, str_app_assoc, lex_escaped_char
      by by apply Ascii.eqb_neq.
    destruct (Ascii.eqb c "000"); [done|].
    destruct (lex_literal true (escape_body pre +:+ rest)) as [u| |] eqn:Hu; try done.
    intros [= <-]. destruct (IH u Hs eq_refl) as (t' & -> & Ht').
    by exists t'.
Qed.

Lemma str_contains_split (c : ascii) (s : string) :
  str_contains c s = true →
  ∃ pre post, s = pre +:+ String c post ∧ str_contains c pre = false.
Proof.
  induction s as [|a s IH]; simpl; [done|].
  destruct (Ascii.eqb_spec a c) as [->|Hne]; simpl.
  - intros _. by exists EmptyString, s.
  - intros Hs. destruct (IH Hs) as (pre & post & -> & Hpre).
    exists (String a pre), post. split; [done|]. simpl.
    by apply Ascii.eqb_neq in Hne as ->.
Qed.

(** With a double quote anywhere, the literal never reads back as the
    string: where the string has its first quote, the literal has a
    backslash, or is no literal at all. *)
Lemma escape_string_quote_never_restored (s : string) :
  str_contains dquote s = true →
  eval_string_literal (_escape_string s) ≠ LitOk s.
Proof.
  intros (pre & post & -> & Hpre)%str_contains_split.
  rewrite escape_string_body. simpl.
  rewrite escape_body_app, escape_body_cons, !str_app_assoc.
  intros Hlex. apply lex_escaped_prefix in Hlex as (t' & Heq & Hlex); [|done].
  rewrite lex_escaped_quote in Hlex.
  destruct (lex_literal false _) as [u| |]; try done.
  injection Hlex as <-.
  apply (inj (String.app pre)) in Heq. discriminate Heq.
Qed.

(** C2: the code does not do what the claim says.  The escaper replaces the
    double quote before it doubles the backslashes, so the backslash it has
    just put in front of a quote is doubled as well: the string made of one
    double quote becomes a literal that the Python lexer rejects, instead of
    one that reads back as the string. *)
Theorem escape_string_quote_not_restored :
  eval_string_literal (_escape_string (str1 dquote)) = LitSyntaxError.
Proof. reflexivity. Qed.

(** ** Type coercion *)

(** C9, as amended: under the bool type tag a string is true exactly when its
    lower-cased text is one of the four true-like literals (the text is not
    stripped); a value that is not a string gets Python's truth value, so a
    non-zero number and the boolean true are true as well; an empty cell is
    [None]. *)
Theorem process_bool_by_kind (value col_type : cell) :
  norm_type col_type = "bool" →
  _process_value_by_type value col_type =
    match value with
    | NaN => VNone
    | CStr s => VBool (bool_decide (lower s ∈ true_literals))
    | CInt z => VBool (negb (z =? 0))
    | CFloat x => VBool (float_truthy x)
    | CBool b => VBool b
    end.
Proof.
  intros Hty. unfold _process_value_by_type. rewrite Hty.
  destruct value; reflexivity.
Qed.

(** C6, as amended: a text cell with exactly one of the two brackets, white
    space stripped, is a single-element list holding the stripped text when it
    has no comma; when it has a comma it is split at the commas like the
    legacy format, into two elements or more. *)
Theorem parse_list_malformed_brackets (raw : string) :
  bracket_malformed (strip raw) = true →
  (str_contains "," (strip raw) = false →
     _parse_list_value (CStr raw) = [VStr (strip raw)]) ∧
  (str_contains "," (strip raw) = true →
     _parse_list_value (CStr raw) = parse_items (strip raw) ∧
     (2 ≤ length (_parse_list_value (CStr raw)))%nat).
Proof.
  unfold bracket_malformed, _parse_list_value. intros Hm.
  assert (startswith "[" (strip raw) && endswith "]" (strip raw) = false) as ->.
  { by destruct (startswith _ _), (endswith _ _). }
  cbv zeta. split; intros Hc; rewrite Hc; [reflexivity|]. split; [reflexivity|].
  unfold parse_items. rewrite !length_fmap.
  by apply length_str_split_contains.
Qed.

(** ** Sheets *)

Lemma process_value_isna (value col_type : cell) :
  isna value = true → _process_value_by_type value col_type = VNone.
Proof. intros Hna. unfold _process_value_by_type. by rewrite Hna. Qed.

(** Later columns with other labels leave an entry as it is. *)
Lemma item_data_fold_other (type_definitions row : list cell) (col : cell)
    (cols : list (nat * cell)) (d : list (cell * pyval)) :
  (∀ p, p ∈ cols → snd p ≠ col) →
  dict_get col
    (foldl (λ item_data '(i, c),
              dict_set c (_process_value_by_type (cell_at row i)
                            (col_type_at type_definitions i)) item_data) d cols)
  = dict_get col d.
Proof.
  revert d. induction cols as [|[i c] cols IH]; intros d Hother; simpl; [done|].
  rewrite IH.
  - apply dict_get_set_ne. apply (Hother (i, c)). left.
  - intros p Hp. apply Hother. by right.
Qed.

Lemma row_item_data_lookup (column_names type_definitions row : list cell)
    (i : nat) (col : cell) :
  NoDup (tail column_names) →
  tail column_names !! i = Some col →
  dict_get col (row_item_data column_names type_definitions row)
  = Some (_process_value_by_type (cell_at row (S i)) (col_type_at type_definitions (S i))).
Proof.
  intros Hnd Hi. unfold row_item_data.
  pose proof (take_drop_middle _ _ _ Hi) as Hsplit.
  rewrite <- Hsplit in Hnd |- *. rewrite enumerate_app. simpl.
  rewrite foldl_app. simpl.
  rewrite item_data_fold_other.
  - rewrite dict_get_set_eq. rewrite length_take_le; [done|].
    apply lookup_lt_Some in Hi. lia.
  - intros [j c] Hin. simpl.
    apply list_elem_of_lookup in Hin as [n Hn].
    rewrite lookup_enumerate in Hn.
    destruct (drop (S i) (tail column_names) !! n) as [c'|] eqn:Hc; simplify_eq/=.
    apply NoDup_app in Hnd as (_ & _ & Hnd). apply NoDup_cons in Hnd as [Hnotin _].
    intros ->. apply Hnotin. eapply list_elem_of_lookup_2; eauto.
Qed.

(** Rows with other keys leave an entry of the compiled sheet as it is. *)
Lemma sheet_fold_other (column_names type_definitions : list cell) (key : cell)
    (rows : list (list cell)) (d : list (cell * pyval)) :
  (∀ r, r ∈ rows → cell_at r 0 ≠ key) →
  dict_get key
    (foldl (λ result r,
              let k := cell_at r 0 in
              if isna k || is_empty_str k then result
              else dict_set k (VDict (row_item_data column_names type_definitions r)) result)
           d rows)
  = dict_get key d.
Proof.
  revert d. induction rows as [|r rows IH]; intros d Hother; simpl; [done|].
  rewrite IH.
  - destruct (isna _ || is_empty_str _); [done|].
    apply dict_get_set_ne. apply Hother. left.
  - intros r' Hr'. apply Hother. by right.
Qed.

(** C4, as amended: in a sheet with distinct column labels, for every data
    row with a key of its own and every non-key column, an empty cell maps the
    column's label to [None] in the row's attribute mapping: the label is kept
    as a key, and it is mapped neither to an empty string nor to zero. *)
Theorem convert_sheet_empty_cell_is_none (df : DataFrame) (row : list cell)
    (j i : nat) (col : cell) :
  df_empty df = false →
  (4 ≤ length df)%nat →
  NoDup (tail (df_row df 0)) →
  drop 3 df !! j = Some row →
  isna (cell_at row 0) = false →
  is_empty_str (cell_at row 0) = false →
  (∀ j' row', drop 3 df !! j' = Some row' → j' ≠ j → cell_at row' 0 ≠ cell_at row 0) →
  tail (df_row df 0) !! i = Some col →
  isna (cell_at row (S i)) = true →
  ∃ item_data,
    dict_get (cell_at row 0) (_convert_sheet_to_dict df) = Some (VDict item_data) ∧
    dict_get col item_data = Some VNone.
Proof.
  intros Hne Hlen Hnd Hrow Hkey1 Hkey2 Huniq Hcol Hna.
  exists (row_item_data (df_row df 0) (df_row df 2) row). split.
  - unfold _convert_sheet_to_dict. rewrite Hne.
    destruct (Nat.ltb_spec (length df) 4) as [?|_]; [lia|].
    pose proof (take_drop_middle _ _ _ Hrow) as Hsplit.
    rewrite <- Hsplit at 1. rewrite foldl_app. simpl.
    rewrite sheet_fold_other.
    + rewrite Hkey1, Hkey2. simpl. apply dict_get_set_eq.
    + intros r Hr. apply list_elem_of_lookup in Hr as [n Hn].
      rewrite lookup_drop in Hn. apply (Huniq _ _ Hn). lia.
  - rewrite (row_item_data_lookup _ _ _ i col Hnd Hcol).
    by rewrite process_value_isna.
Qed.

(** ** Validation *)

Lemma validate_sheet_key_type (df : DataFrame) (t : cell) :
  df_row df 2 !! O = Some t →
  norm_type t ∉ valid_key_types →
  _validate_sheet df ≠ [].
Proof.
  intros Ht Hbad. unfold _validate_sheet.
  destruct (df_empty df); [done|].
  destruct (_ <? 4)%nat; [done|].
  destruct (_ <? 2)%nat; [done|].
  cbv zeta. rewrite Ht.
  intros Hnil. apply app_eq_nil in Hnil as [_ Hnil].
  apply app_eq_nil in Hnil as [_ Hnil].
  apply app_eq_nil in Hnil as [Hnil _].
  destruct t; try done; by rewrite bool_decide_false in Hnil.
Qed.

Lemma validate_excel_file_sheet_error (xf : ExcelFile)
    (excel_data : list (string * DataFrame)) (sheet : string * DataFrame) :
  xl_book xf = Some excel_data →
  sheet ∈ excel_data →
  fst sheet ≠ DESCRIBE_SHEET_NAME →
  _validate_sheet (snd sheet) ≠ [] →
  validate_data_before_conversion xf = false.
Proof.
  intros Hbook Hin Hname Herr.
  unfold validate_data_before_conversion, validate_excel_file. rewrite Hbook.
  destruct (xl_size xf =? 0); [done|].
  destruct (_validate_sheet (snd sheet)) as [|e errs] eqn:Hs; [done|].
  assert (SheetError (fst sheet) e ∈
            mjoin (sheet_file_errors <$>
                     filter (λ sheet, fst sheet ≠ DESCRIBE_SHEET_NAME) excel_data)) as Hmem.
  { apply list_elem_of_join. exists (sheet_file_errors sheet). split.
    - unfold sheet_file_errors. rewrite Hs. left.
    - apply list_elem_of_fmap_2. by apply list_elem_of_filter. }
  destruct (mjoin _) as [|e' l']; [by apply elem_of_nil in Hmem|done].
Qed.

(** ** The converter *)

(** The two ways [convert_excel_file] ends: nothing happened, or the module
    was written and the times were recorded. *)
Lemma convert_excel_file_cases (env : Env) (w : World) (stem : string) :
  convert_excel_file env w stem = (None, w) ∨
  ∃ xf excel_data,
    excel_files w !! stem = Some xf ∧
    xl_book xf = Some excel_data ∧
    validate_data_before_conversion xf = true ∧
    env_code_writable env = true ∧
    convert_excel_file env w stem =
      (Some (code_path stem),
       _save_modified_times env
         (record_times
            (write_code_file env w stem
               (_generate_python_code stem (convert_sheets excel_data)
                  (excel_path stem) (env_now env)))
            stem (xl_mtime xf))).
Proof.
  unfold convert_excel_file.
  destruct (excel_files w !! stem) as [xf|] eqn:Hxf; [|by left].
  destruct (negb _ && negb _); [by left|].
  destruct (validate_data_before_conversion xf) eqn:Hv; [|by left]. simpl.
  destruct (xl_book xf) as [excel_data|] eqn:Hbook; [|by left].
  destruct (convert_sheets excel_data) as [|s data] eqn:Hd; [by left|].
  destruct (env_code_writable env) eqn:Hw; [|by left].
  right. exists xf, excel_data. rewrite Hd. by repeat split.
Qed.

Lemma save_modified_times_code_files (env : Env) (w : World) :
  code_files (_save_modified_times env w) = code_files w.
Proof. unfold _save_modified_times. by destruct (env_times_writable env). Qed.

Lemma convert_invalid_source (env : Env) (w : World) (c : string) (xf : ExcelFile) :
  excel_files w !! c = Some xf →
  validate_data_before_conversion xf = false →
  convert_excel_file env w c = (None, w).
Proof.
  intros Hxf Hv.
  destruct (convert_excel_file_cases env w c)
    as [->|(xf' & ? & Hxf' & _ & Hv' & _)]; [done|congruence].
Qed.

(** C5: when the validation of a sheet of the source file (the instructions
    sheet apart) reports an error, and in particular when the declared type of
    its key column is neither string nor int, the conversion of the file
    returns nothing and leaves the state as it was: no module file is written,
    and a module file generated earlier keeps its content. *)
Theorem convert_aborts_on_sheet_error (env : Env) (w : World) (stem : string)
    (xf : ExcelFile) (excel_data : list (string * DataFrame)) (sheet : string * DataFrame) :
  excel_files w !! stem = Some xf →
  xl_book xf = Some excel_data →
  sheet ∈ excel_data →
  fst sheet ≠ DESCRIBE_SHEET_NAME →
  (_validate_sheet (snd sheet) ≠ [] ∨
   ∃ t, df_row (snd sheet) 2 !! O = Some t ∧ norm_type t ∉ valid_key_types) →
  convert_excel_file env w stem = (None, w) ∧
  code_files (snd (convert_excel_file env w stem)) = code_files w.
Proof.
  intros Hxf Hbook Hin Hname Herr.
  assert (_validate_sheet (snd sheet) ≠ []) as Herr'.
  { destruct Herr as [?|(t & Ht & Hbad)]; [done|]. by eapply validate_sheet_key_type. }
  pose proof (validate_excel_file_sheet_error xf _ sheet Hbook Hin Hname Herr') as Hv.
  by rewrite (convert_invalid_source env w stem xf Hxf Hv).
Qed.

(** C7, as amended: when the source file and the module file both exist, the
    recorded times are their modification times, and the recorded source time
    is not zero (zero is how the converter reads a missing record), the
    conversion returns nothing and changes nothing: not the module file, not
    the dictionaries of recorded times, not the record file. *)
Theorem convert_unchanged_is_noop (env : Env) (w : World) (stem : string)
    (xf : ExcelFile) (cf : CodeFile) :
  excel_files w !! stem = Some xf →
  code_files w !! stem = Some cf →
  excel_modified_time w !! stem = Some (xl_mtime xf) →
  module_modified_time w !! stem = Some (cf_mtime cf) →
  xl_mtime xf ≠ 0 →
  convert_excel_file env w stem = (None, w).
Proof.
  intros Hxf Hcf He Hm Hnz. unfold convert_excel_file.
  rewrite Hxf, Hcf, He, Hm. cbn [default id].
  destruct (Z.eqb_spec (xl_mtime xf) 0) as [?|_]; [done|].
  rewrite !Z.gtb_ltb, !Z.ltb_irrefl.
  destruct (bool_decide _) eqn:Hex; [reflexivity|].
  apply bool_decide_eq_false in Hex. destruct Hex. eauto.
Qed.

(** C10: the conversion touches the staleness record only once the module
    file is written.  When it returns nothing, the two dictionaries of
    recorded times and the record file are what they were; and when any of the
    three differs after the call, the call has returned the module's path and
    the module file is there, written at this call with the text generated
    from the validated source. *)
Theorem convert_records_after_write (env : Env) (w : World) (stem : string) :
  (fst (convert_excel_file env w stem) = None →
     staleness (snd (convert_excel_file env w stem)) = staleness w) ∧
  (staleness (snd (convert_excel_file env w stem)) ≠ staleness w →
     fst (convert_excel_file env w stem) = Some (code_path stem) ∧
     ∃ xf excel_data,
       excel_files w !! stem = Some xf ∧
       xl_book xf = Some excel_data ∧
       validate_data_before_conversion xf = true ∧
       code_files (snd (convert_excel_file env w stem)) !! stem
       = Some {| cf_mtime := env_clock env;
                 cf_text := _generate_python_code stem (convert_sheets excel_data)
                              (excel_path stem) (env_now env) |}).
Proof.
  destruct (convert_excel_file_cases env w stem)
    as [->|(xf & excel_data & Hxf & Hbook & Hv & _ & ->)]; simpl.
  - split; [done|]. by intros [].
  - split; [done|]. intros _. split; [done|].
    exists xf, excel_data. split; [done|]. split; [done|]. split; [done|].
    rewrite save_modified_times_code_files. simpl.
    apply lookup_insert_eq.
Qed.

(** ** The manager *)

(** C3, as amended: when the source file of a config exists and fails
    validation, reloading the config leaves the module file and the staleness
    record untouched, and returns true exactly when a module file exists and
    yields a module (the one loaded before, when the file is no newer than the
    last load; else the one the file loads as), false otherwise.  A mapping
    loaded before stays loaded and readable: it stays in place, or is replaced
    by what a module file newer than the last load loads as. *)
Theorem reload_config_invalid_source (env : Env) (w : World) (c : string) (xf : ExcelFile) :
  excel_files w !! c = Some xf →
  validate_data_before_conversion xf = false →
  let r := reload_config env w c in
  code_files (snd r) = code_files w ∧
  staleness (snd r) = staleness w ∧
  (fst r = true ↔
     ∃ cf, code_files w !! c = Some cf ∧
           if load_is_cached w c cf then is_Some (loaded_modules w !! c)
           else is_Some (exec_module (cf_text cf))) ∧
  (∀ m, loaded_modules w !! c = Some m →
     ∃ m', loaded_modules (snd r) !! c = Some m' ∧
           (m' = m ∨
            ∃ cf, code_files w !! c = Some cf ∧ load_is_cached w c cf = false ∧
                  exec_module (cf_text cf) = Some m')).
Proof.
  intros Hxf Hv. cbv zeta. unfold reload_config.
  assert ((if excel_is_newer w c then snd (convert_excel_file env w c) else w) = w) as ->.
  { destruct (excel_is_newer w c); [|done]. by rewrite (convert_invalid_source _ _ _ xf). }
  destruct (code_files w !! c) as [cf|] eqn:Hcf; simpl.
  - unfold _load_config_module.
    destruct (load_is_cached w c cf) eqn:Hcached; simpl.
    + split; [done|]. split; [done|]. split; [split|].
      * intros Hr%bool_decide_eq_true. exists cf. by rewrite Hcached.
      * intros (cf' & Heq & Hl). simplify_eq. rewrite Hcached in Hl.
        by apply bool_decide_eq_true.
      * intros m Hm. exists m. by split; [|left].
    + destruct (exec_module (cf_text cf)) as [m'|] eqn:Hexec; simpl.
      * split; [done|]. split; [done|]. split; [split|].
        -- intros _. exists cf. rewrite Hcached, Hexec. eauto.
        -- done.
        -- intros m Hm. exists m'. rewrite lookup_insert_eq. split; [done|].
           right. by exists cf.
      * split; [done|]. split; [done|]. split; [split|].
        -- done.
        -- intros (cf' & Heq & Hl). simplify_eq. rewrite Hcached, Hexec in Hl.
           by destruct Hl.
        -- intros m Hm. exists m. by split; [|left].
  - split; [done|]. split; [done|]. split; [split|].
    + done.
    + intros (cf' & Heq & _). done.
    + intros m Hm. exists m. by split; [|left].
Qed.

(** Once cleared, the aggregate flag stays cleared. *)
Lemma check_code_file_flag (w : World) (result : Report) (c : string) :
  all_up_to_date result = false →
  all_up_to_date (check_code_file w result c) = false.
Proof. intros Hf. unfold check_code_file. by destruct (excel_files w !! c). Qed.

Lemma check_code_files_flag (w : World) (l : list (string * CodeFile)) (result : Report) :
  all_up_to_date result = false →
  all_up_to_date (foldl (λ result f, check_code_file w result (fst f)) result l) = false.
Proof.
  revert result. induction l as [|f l IH]; intros result Hf; simpl; [done|].
  apply IH. by apply check_code_file_flag.
Qed.




(** The loop over the generated files leaves the entries of other configs
    alone. *)
Lemma check_code_files_other (w : World) (l : list (string * CodeFile))
    (result : Report) (c : string) :
  c ∉ l.*1 →
  details (foldl (λ result f, check_code_file w result (fst f)) result l) !! c
  = details result !! c.
Proof.
  revert result. induction l as [|[c' cf'] l IH]; intros result Hnotin; simpl; [done|].
  rewrite IH by (intros ?; apply Hnotin; by right).
  unfold check_code_file. destruct (excel_files w !! c'); [done|]. simpl.
  apply lookup_insert_ne. intros ->. apply Hnotin. left.
Qed.

Lemma check_code_files_orphan (w : World) (l : list (string * CodeFile))
    (result : Report) (c : string) (cf : CodeFile) :
  NoDup l.*1 →
  (c, cf) ∈ l →
  excel_files w !! c = None →
  let result' := foldl (λ result f, check_code_file w result (fst f)) result l in
  details result' !! c = Some (orphan_detail c) ∧ all_up_to_date result' = false.
Proof.
  intros Hnd Hin Hx. simpl.
  apply list_elem_of_split in Hin as (l1 & l2 & ->).
  rewrite fmap_app, fmap_cons in Hnd.
  apply NoDup_app in Hnd as (_ & _ & Hnd). apply NoDup_cons in Hnd as [Hnotin _].
  rewrite foldl_app. simpl.
  set (r1 := foldl _ result l1).
  assert (check_code_file w r1 c =
          {| all_up_to_date := false;
             total_configs := total_configs r1;
             up_to_date_configs := up_to_date_configs r1;
             outdated_configs := outdated_configs r1;
             missing_excel_files := missing_excel_files r1;
             missing_code_files := missing_code_files r1;
             details := <[c := orphan_detail c]> (details r1) |}) as ->.
  { unfold check_code_file. by rewrite Hx. }
  split.
  - rewrite check_code_files_other by done. simpl. apply lookup_insert_eq.
  - by apply check_code_files_flag.
Qed.


(** ** More on string literals *)

(** X1: a text without a double quote is read back from its literal.  The
    escaped text between double quotes, read as a Python string literal,
    is the text itself: backslashes, line feeds, carriage returns and tabs
    are all restored (a null character may not occur in a Python source). *)
Theorem escape_string_roundtrip (s : string) :
  str_contains dquote s = false →
  str_contains "000" s = false →
  eval_string_literal (_escape_string s) = LitOk s.
Proof. apply escape_string_roundtrip_without_quote. Qed.

(** ** More on type coercion *)


(** X2: a value that passes validation is coerced, not kept as text.  For a
    cell that is not empty and for which the validator has nothing to report,
    an int column gives the parsed integer, a float column the parsed
    float, and a json or yaml column whose text has the shape of a document
    gives the parsed document: the fallback to the raw string is not taken. *)
Theorem validated_value_is_parsed (value col_type : cell) :
  isna value = false →
  _validate_value_by_type value col_type = [] →
  (norm_type col_type = "int" →
     ∃ z, py_int value = Some z ∧ _process_value_by_type value col_type = VInt z) ∧
  (norm_type col_type = "float" →
     ∃ x, py_float value = Some x ∧ _process_value_by_type value col_type = VFloat x) ∧
  (norm_type col_type = "json" →
     ∀ raw, value = CStr raw →
       startswith "{" (strip raw) && endswith "}" (strip raw) = true →
       ∃ v, json_loads (strip raw) = Some v ∧ _process_value_by_type value col_type = v) ∧
  (norm_type col_type = "yaml" →
     ∀ raw, value = CStr raw →
       startswith "-" (strip raw) || str_contains ":" (strip raw) = true →
       ∃ v, yaml_safe_load (strip raw) = Some v ∧ _process_value_by_type value col_type = v).
Proof.
  intros Hna Hval. unfold _validate_value_by_type, _process_value_by_type in *.
  rewrite Hna in *.
  repeat split; intros Hty; rewrite Hty in *; simpl in *.
  - destruct (py_int value) as [z|]; [by exists z|done].
  - destruct (py_float value) as [x|]; [by exists x|done].
  - intros raw -> Hb. unfold _parse_json_value. cbv zeta in *. rewrite Hb in *.
    destruct (json_loads (strip raw)) as [v|]; [by exists v|done].
  - intros raw -> Hb. unfold _parse_yaml_value. cbv zeta in *. rewrite Hb in *.
    destruct (yaml_safe_load (strip raw)) as [v|]; [by exists v|done].
Qed.

Lemma length_str_split (c : ascii) (s : string) :
  length (str_split c s) = S (str_count c s).
Proof.
  induction s as [|a s IH]; simpl; [done|].
  destruct (Ascii.eqb a c); simpl; [by rewrite IH|].
  destruct (str_split c s); simpl in *; lia.
Qed.

(** X3: a bracketed list has one item more than it has commas.  The text
    between the brackets is cut at every comma, also at a comma inside a
    quoted item, and no item is dropped, not even an empty one. *)
Theorem parse_list_bracketed_length (raw : string) :
  startswith "[" (strip raw) && endswith "]" (strip raw) = true →
  strip (slice_1_m1 (strip raw)) ≠ EmptyString →
  length (_parse_list_value (CStr raw))
  = S (str_count "," (strip (slice_1_m1 (strip raw)))).
Proof.
  intros Hb Hne. unfold _parse_list_value. cbv zeta. rewrite Hb.
  destruct (String.eqb_spec (strip (slice_1_m1 (strip raw))) EmptyString) as [?|_]; [done|].
  unfold parse_items. by rewrite !length_fmap, length_str_split.
Qed.

(** X4: the list parser gives the empty list only for a pair of brackets
    with nothing but blanks between them.  Every other value, an empty text
    included, gives at least one item. *)
Theorem parse_list_empty_iff (value : cell) :
  _parse_list_value value = [] ↔
  ∃ raw, value = CStr raw ∧
         startswith "[" (strip raw) && endswith "]" (strip raw) = true ∧
         strip (slice_1_m1 (strip raw)) = EmptyString.
Proof.
  assert (∀ s, parse_items s ≠ []) as Hitems.
  { intros s Hs. apply (f_equal length) in Hs. unfold parse_items in Hs.
    rewrite !length_fmap, length_str_split in Hs. done. }
  split.
  - destruct value as [|raw| | |]; try done. unfold _parse_list_value. cbv zeta.
    destruct (startswith "[" (strip raw) && endswith "]" (strip raw)) eqn:Hb.
    + destruct (String.eqb_spec (strip (slice_1_m1 (strip raw))) EmptyString) as [He|_].
      * intros _. by exists raw.
      * intros Hp. by apply Hitems in Hp.
    + destruct (str_contains "," (strip raw)); [|done].
      intros Hp. by apply Hitems in Hp.
  - intros (raw & -> & Hb & He). unfold _parse_list_value. cbv zeta.
    rewrite Hb, He. reflexivity.
Qed.

(** ** More on sheets *)


Lemma dict_set_fresh {K V} `{EqDecision K} (k : K) (v : V) (d : list (K * V)) :
  k ∉ d.*1 → dict_set k v d = d ++ [(k, v)].
Proof.
  induction d as [|[k' v'] d IH]; simpl; [done|].
  intros Hnotin. rewrite decide_False.
  - rewrite IH; [done|]. intros ?. apply Hnotin. by right.
  - intros ->. apply Hnotin. left.
Qed.

(** Setting distinct keys one after the other lists them in that order. *)
Lemma foldl_dict_set_fresh {A K V} `{EqDecision K} (f : A → K * V) (l : list A)
    (d : list (K * V)) :
  NoDup (d.*1 ++ (f <$> l).*1) →
  foldl (λ d x, dict_set (fst (f x)) (snd (f x)) d) d l = d ++ (f <$> l).
Proof.
  revert d. induction l as [|x l IH]; intros d Hnd; simpl.
  - by rewrite app_nil_r.
  - rewrite dict_set_fresh.
    + rewrite IH.
      * rewrite <- app_assoc. simpl. by destruct (f x).
      * rewrite fmap_app. simpl. rewrite <- app_assoc. simpl. exact Hnd.
    + simpl in Hnd. apply NoDup_app in Hnd as (_ & Hdisj & _).
      intros Hin. apply (Hdisj _ Hin). left.
Qed.

Lemma foldl_pointwise {A B} (f g : A → B → A) (l : list B) (a : A) :
  (∀ a b, f a b = g a b) → foldl f a l = foldl g a l.
Proof.
  intros Hfg. revert a. induction l as [|b l IH]; intros a; simpl; [done|].
  by rewrite Hfg, IH.
Qed.

Lemma enumerate_snd {A} (n : nat) (l : list A) : (enumerate n l).*2 = l.
Proof. revert n. induction l as [|x l IH]; intros n; simpl; [done|]. by rewrite IH. Qed.

(** X5: when the names of the columns after the first are distinct, the data
    of a row has one entry for each of them, in the order of the columns,
    each holding the cell of that column coerced by the type of that
    column. *)
Theorem row_item_data_columns (column_names type_definitions row : list cell) :
  NoDup (tail column_names) →
  row_item_data column_names type_definitions row
  = column_entry type_definitions row <$> enumerate 1 (tail column_names).
Proof.
  intros Hnd. unfold row_item_data.
  etrans;
    [|apply (foldl_dict_set_fresh (column_entry type_definitions row)
               (enumerate 1 (tail column_names)) [])].
  - apply foldl_pointwise. by intros d [i c].
  - simpl.
    replace ((column_entry type_definitions row <$> enumerate 1 (tail column_names)).*1)
      with ((enumerate 1 (tail column_names)).*2).
    + by rewrite enumerate_snd.
    + rewrite <- !list_fmap_compose. by apply list_fmap_ext.
Qed.


Lemma convert_sheet_loop (df : DataFrame) :
  df_empty df = false → (4 ≤ length df)%nat →
  _convert_sheet_to_dict df = sheet_loop df [] (drop 3 df).
Proof.
  intros He Hlen. unfold _convert_sheet_to_dict. rewrite He.
  by destruct (Nat.ltb_spec (length df) 4) as [?|_]; [lia|].
Qed.





Lemma sheet_loop_filter (df : DataFrame) (rows : list (list cell)) (d : list (cell * pyval)) :
  sheet_loop df d rows
  = foldl (λ d row, dict_set (fst (row_entry df row)) (snd (row_entry df row)) d) d
      (filter (λ row, isna (cell_at row 0) || is_empty_str (cell_at row 0) = false) rows).
Proof.
  revert d. induction rows as [|row rows IH]; intros d; simpl; [done|].
  rewrite IH. rewrite filter_cons.
  destruct (isna (cell_at row 0) || is_empty_str (cell_at row 0)) eqn:Hskip.
  - by rewrite decide_False.
  - by rewrite decide_True.
Qed.

Lemma convert_sheet_distinct_keys_facts (df : DataFrame) :
  df_empty df = false →
  (4 ≤ length df)%nat →
  NoDup ((λ row, cell_at row 0) <$> keyed_rows df) →
  _convert_sheet_to_dict df = row_entry df <$> keyed_rows df.
Proof.
  intros He Hlen Hnd. rewrite convert_sheet_loop, sheet_loop_filter by done.
  apply (foldl_dict_set_fresh (row_entry df) (keyed_rows df) []).
  simpl. by rewrite <- list_fmap_compose.
Qed.


(** ** Validated sheets *)

Lemma duplicated_nil (seen keys : list cell) :
  duplicated seen keys = [] → NoDup keys ∧ ∀ k, k ∈ keys → k ∉ seen.
Proof.
  revert seen. induction keys as [|k keys IH]; intros seen; simpl.
  - intros _. split; [constructor|]. by intros k ?%elem_of_nil.
  - destruct (bool_decide (k ∈ seen)) eqn:Hk; [done|].
    apply bool_decide_eq_false in Hk.
    intros [Hnd Hseen]%IH. split.
    + constructor; [|done]. intros Hin. apply (Hseen _ Hin). left.
    + intros k' [->|Hin]%elem_of_cons; [done|].
      intros Hs. apply (Hseen _ Hin). by right.
Qed.

Lemma unique_nil (l : list cell) : unique [] l = [] → l = [].
Proof.
  destruct l as [|k l]; [done|]. cbn [unique].
  destruct (bool_decide (k ∈ [])) eqn:Hk; [|done].
  apply bool_decide_eq_true in Hk. by apply elem_of_nil in Hk.
Qed.

Lemma duplicate_keys_nil (keys : list cell) : duplicate_keys keys = [] → NoDup keys.
Proof. intros Hu%unique_nil. by apply duplicated_nil in Hu as [? _]. Qed.

Lemma mjoin_nil {A} (ls : list (list A)) : mjoin ls = [] → ∀ l, l ∈ ls → l = [].
Proof.
  induction ls as [|l0 ls IH]; simpl; [by intros _ l ?%elem_of_nil|].
  intros [-> Hrest]%app_eq_nil l [->|Hin]%elem_of_cons; [done|]. by apply IH.
Qed.

Lemma validated_sheet_shape_facts (df : DataFrame) :
  _validate_sheet df = [] →
  (4 ≤ length df)%nat ∧ (2 ≤ df_ncols df)%nat ∧
  NoDup (sheet_keys df) ∧
  (∀ k, k ∈ sheet_keys df → strip (cell_str k) ≠ EmptyString) ∧
  (∃ t, df_row df 2 !! O = Some t ∧ norm_type t ∈ valid_key_types) ∧
  (∀ j row i col,
     drop 3 df !! j = Some row →
     tail (df_row df 0) !! i = Some col →
     _validate_value_by_type (cell_at row (S i)) (col_type_at (df_row df 2) (S i)) = []).
Proof.
  unfold _validate_sheet.
  destruct (df_empty df); [done|].
  destruct (Nat.ltb_spec (length df) 4) as [?|Hlen]; [done|].
  destruct (Nat.ltb_spec (df_ncols df) 2) as [?|Hcols]; [done|].
  cbv zeta. fold (sheet_keys df).
  intros [Hempty [Hdup [Htype Hcolumns]%app_eq_nil]%app_eq_nil]%app_eq_nil.
  split; [done|]. split; [done|]. split; [|split; [|split]].
  - apply duplicate_keys_nil. by destruct (duplicate_keys (sheet_keys df)).
  - intros k Hk Hblank.
    assert (k ∈ filter (λ k, strip (cell_str k) = EmptyString) (sheet_keys df)) as Hin
      by by apply list_elem_of_filter.
    destruct (filter _ (sheet_keys df)); [by apply elem_of_nil in Hin|done].
  - destruct (df_row df 2 !! O) as [t|]; [|done].
    exists t. split; [done|].
    destruct t as [|s|z|x|b]; [done|..];
      (destruct (bool_decide _) eqn:Hb in Htype; [|done];
       by apply bool_decide_eq_true in Hb).
  - intros j row i col Hrow Hcol.
    assert (column_errors (drop 3 df) (df_row df 2) (S i) col = []) as Hc.
    { apply (mjoin_nil _ Hcolumns). apply list_elem_of_fmap.
      exists (S i, col). split; [done|].
      apply list_elem_of_lookup. exists i. rewrite lookup_enumerate, Hcol. done. }
    unfold column_errors in Hc.
    assert (ColumnError col (3 + j + 4) <$>
              _validate_value_by_type (cell_at row (S i)) (col_type_at (df_row df 2) (S i))
            = []) as Hv.
    { apply (mjoin_nil _ Hc). apply list_elem_of_fmap.
      exists ((3 + j)%nat, row). split; [done|].
      apply list_elem_of_lookup. exists j. rewrite lookup_enumerate, Hrow. done. }
    by apply fmap_nil_inv in Hv.
Qed.

(** X8: what a sheet without validation errors looks like.  It has the three
    header rows and a data row, at least two columns, keys that are distinct
    and none of them blank, a key column of type int or string, and every
    cell of every data row passes the validator of its column. *)
Theorem validated_sheet_shape (df : DataFrame) :
  _validate_sheet df = [] →
  (4 ≤ length df)%nat ∧ (2 ≤ df_ncols df)%nat ∧
  NoDup (sheet_keys df) ∧
  (∀ k, k ∈ sheet_keys df → strip (cell_str k) ≠ EmptyString) ∧
  (∃ t, df_row df 2 !! O = Some t ∧ norm_type t ∈ valid_key_types) ∧
  (∀ j row i col,
     drop 3 df !! j = Some row →
     tail (df_row df 0) !! i = Some col →
     _validate_value_by_type (cell_at row (S i)) (col_type_at (df_row df 2) (S i)) = []).
Proof. apply validated_sheet_shape_facts. Qed.

Lemma mjoin_all_nil {A} (ls : list (list A)) : (∀ l, l ∈ ls → l = []) → mjoin ls = [].
Proof.
  induction ls as [|l0 ls IH]; intros Hall; simpl; [done|].
  rewrite (Hall l0) by left. simpl. apply IH. intros l ?. apply Hall. by right.
Qed.

Lemma validated_sheet_not_empty (df : DataFrame) :
  _validate_sheet df = [] → df_empty df = false.
Proof. unfold _validate_sheet. by destruct (df_empty df). Qed.

Lemma keyed_rows_keys (rows : list (list cell)) :
  (∀ row, row ∈ rows → isna (cell_at row 0) = false → is_empty_str (cell_at row 0) = false) →
  (λ row, cell_at row 0) <$>
    filter (λ row, isna (cell_at row 0) || is_empty_str (cell_at row 0) = false) rows
  = filter (λ k, isna k = false) ((λ row, cell_at row 0) <$> rows).
Proof.
  induction rows as [|row rows IH]; intros Hrows; [done|].
  rewrite fmap_cons, !filter_cons.
  rewrite <- IH by (intros r ?; apply Hrows; by right).
  pose proof (Hrows row ltac:(left)) as Hrow.
  destruct (decide (isna (cell_at row 0) || is_empty_str (cell_at row 0) = false)) as [Hk|Hk];
    destruct (decide (isna (cell_at row 0) = false)) as [Hn|Hn]; simpl; try done.
  - by apply orb_false_elim in Hk as [? _].
  - destruct Hk. by rewrite Hn, Hrow.
Qed.

(** X9: a validated sheet loses no row.  When the validator reports nothing,
    the compiled sheet has exactly one entry for each data row with a key,
    in the order of the rows, and its keys are the distinct keys of the
    sheet. *)
Theorem validated_sheet_compiles (df : DataFrame) :
  _validate_sheet df = [] →
  _convert_sheet_to_dict df = row_entry df <$> keyed_rows df ∧
  (_convert_sheet_to_dict df).*1 = sheet_keys df ∧
  NoDup (sheet_keys df).
Proof.
  intros Hv. pose proof (validated_sheet_not_empty df Hv) as He.
  destruct (validated_sheet_shape_facts df Hv) as (Hlen & _ & Hnd & Hblank & _).
  assert ((λ row, cell_at row 0) <$> keyed_rows df = sheet_keys df) as Hkeys.
  { apply keyed_rows_keys. intros row Hrow Hna.
    destruct (cell_at row 0) as [|[|a s]| | |] eqn:Hk; try done.
    destruct (Hblank (CStr EmptyString)); [|done].
    apply list_elem_of_filter. split; [done|].
    rewrite <- Hk. by apply (list_elem_of_fmap_2 (λ row, cell_at row 0)). }
  assert (_convert_sheet_to_dict df = row_entry df <$> keyed_rows df) as Hc.
  { apply convert_sheet_distinct_keys_facts; [done..|]. by rewrite Hkeys. }
  split; [done|]. split; [|done].
  by rewrite Hc, <- list_fmap_compose.
Qed.

(** ** Validated files *)

(** X10: a file is accepted for conversion exactly when it can be read, is not
    of size zero, every sheet other than the instructions sheet validates
    without error, and there is at least one such sheet. *)
Theorem validate_data_characterised (xf : ExcelFile) :
  validate_data_before_conversion xf = true ↔
  ∃ excel_data,
    xl_book xf = Some excel_data ∧
    xl_size xf ≠ 0 ∧
    (∀ sheet, sheet ∈ excel_data → fst sheet ≠ DESCRIBE_SHEET_NAME →
              _validate_sheet (snd sheet) = []) ∧
    (∃ sheet, sheet ∈ excel_data ∧ fst sheet ≠ DESCRIBE_SHEET_NAME).
Proof.
  unfold validate_data_before_conversion, validate_excel_file. split.
  - destruct (xl_book xf) as [excel_data|]; [|done].
    destruct (Z.eqb_spec (xl_size xf) 0) as [?|Hsize]; [done|].
    destruct (mjoin _ ++ _) eqn:Herr; [|done]. intros _.
    apply app_eq_nil in Herr as [Hsheets Hvalid].
    exists excel_data. split; [done|]. split; [done|]. split.
    + intros sheet Hin Hname.
      assert (sheet_file_errors sheet = []) as Hs.
      { apply (mjoin_nil _ Hsheets). apply list_elem_of_fmap_2.
        by apply list_elem_of_filter. }
      by apply fmap_nil_inv in Hs.
    + destruct (filter _ (filter _ excel_data)) as [|sheet l] eqn:Hf; [done|].
      exists sheet.
      assert (sheet ∈ filter (λ sheet, _validate_sheet (snd sheet) = [])
                (filter (λ sheet, fst sheet ≠ DESCRIBE_SHEET_NAME) excel_data)) as Hin
        by (rewrite Hf; left).
      apply list_elem_of_filter in Hin as [_ Hin].
      apply list_elem_of_filter in Hin as [? ?]. done.
  - intros (excel_data & -> & Hsize & Hall & sheet & Hin & Hname).
    destruct (Z.eqb_spec (xl_size xf) 0) as [?|_]; [done|].
    assert (mjoin (sheet_file_errors <$>
                     filter (λ sheet, fst sheet ≠ DESCRIBE_SHEET_NAME) excel_data) = []) as ->.
    { apply mjoin_all_nil. intros l (s & -> & Hs)%list_elem_of_fmap.
      apply list_elem_of_filter in Hs as [Hs Hin'].
      unfold sheet_file_errors. by rewrite (Hall s). }
    assert (sheet ∈ filter (λ sheet, _validate_sheet (snd sheet) = [])
              (filter (λ sheet, fst sheet ≠ DESCRIBE_SHEET_NAME) excel_data)) as Hvalid.
    { apply list_elem_of_filter. split; [by apply Hall|]. by apply list_elem_of_filter. }
    by destruct (filter _ (filter _ excel_data)); [apply elem_of_nil in Hvalid|].
Qed.

(** ** The instructions sheet *)



(** ** What a conversion leaves alone, and what it leaves behind *)

Lemma save_modified_times_frame (env : Env) (w : World) :
  excel_files (_save_modified_times env w) = excel_files w ∧
  code_files (_save_modified_times env w) = code_files w ∧
  excel_modified_time (_save_modified_times env w) = excel_modified_time w ∧
  module_modified_time (_save_modified_times env w) = module_modified_time w ∧
  loaded_modules (_save_modified_times env w) = loaded_modules w ∧
  last_modified (_save_modified_times env w) = last_modified w.
Proof. unfold _save_modified_times. by destruct (env_times_writable env). Qed.

Lemma convert_frame (env : Env) (w : World) (stem : string) :
  let w' := snd (convert_excel_file env w stem) in
  excel_files w' = excel_files w ∧
  loaded_modules w' = loaded_modules w ∧
  last_modified w' = last_modified w ∧
  ∀ c, c ≠ stem →
    code_files w' !! c = code_files w !! c ∧
    excel_modified_time w' !! c = excel_modified_time w !! c ∧
    module_modified_time w' !! c = module_modified_time w !! c.
Proof.
  cbv zeta.
  destruct (convert_excel_file_cases env w stem)
    as [->|(xf & excel_data & _ & _ & _ & _ & ->)]; [done|]. simpl.
  destruct (save_modified_times_frame env
              (record_times
                 (write_code_file env w stem
                    (_generate_python_code stem (convert_sheets excel_data)
                       (excel_path stem) (env_now env))) stem (xl_mtime xf)))
    as (-> & -> & -> & -> & -> & ->). simpl.
  split; [done|]. split; [done|]. split; [done|].
  intros c Hc. by rewrite !lookup_insert_ne.
Qed.

(** X12: a conversion is local.  It never touches a source file, a loaded
    module or a time of last load, and for every other config it leaves the
    module file and the two recorded times as they were. *)
Theorem convert_excel_file_frame (env : Env) (w : World) (stem : string) :
  let w' := snd (convert_excel_file env w stem) in
  excel_files w' = excel_files w ∧
  loaded_modules w' = loaded_modules w ∧
  last_modified w' = last_modified w ∧
  ∀ c, c ≠ stem →
    code_files w' !! c = code_files w !! c ∧
    excel_modified_time w' !! c = excel_modified_time w !! c ∧
    module_modified_time w' !! c = module_modified_time w !! c.
Proof. apply convert_frame. Qed.

Lemma convert_excel_file_success (env : Env) (w : World) (stem path : string) :
  fst (convert_excel_file env w stem) = Some path →
  ∃ xf excel_data,
    excel_files w !! stem = Some xf ∧
    xl_book xf = Some excel_data ∧
    validate_data_before_conversion xf = true ∧
    env_code_writable env = true ∧
    path = code_path stem ∧
    snd (convert_excel_file env w stem) =
      _save_modified_times env
        (record_times
           (write_code_file env w stem
              (_generate_python_code stem (convert_sheets excel_data)
                 (excel_path stem) (env_now env)))
           stem (xl_mtime xf)).
Proof.
  destruct (convert_excel_file_cases env w stem)
    as [->|(xf & excel_data & Hxf & Hbook & Hv & Hw & ->)]; [done|]. simpl.
  intros [= <-]. by exists xf, excel_data.
Qed.

Lemma convert_success_records (env : Env) (w : World) (stem path : string) :
  fst (convert_excel_file env w stem) = Some path →
  let w' := snd (convert_excel_file env w stem) in
  ∃ xf cf,
    excel_files w' !! stem = Some xf ∧
    code_files w' !! stem = Some cf ∧
    cf_mtime cf = env_clock env ∧
    excel_modified_time w' !! stem = Some (xl_mtime xf) ∧
    module_modified_time w' !! stem = Some (cf_mtime cf) ∧
    (env_times_writable env = true →
       ∃ data, times_file w' = Some data ∧
               data !! stem = Some (xl_mtime xf, cf_mtime cf)).
Proof.
  intros (xf & excel_data & Hxf & _ & _ & _ & _ & ->)%convert_excel_file_success.
  cbv zeta.
  match goal with |- context [_save_modified_times env ?w1] => set (w1' := w1) end.
  destruct (save_modified_times_frame env w1') as (-> & -> & -> & -> & _ & _).
  exists xf, {| cf_mtime := env_clock env;
                cf_text := _generate_python_code stem (convert_sheets excel_data)
                             (excel_path stem) (env_now env) |}.
  subst w1'. simpl. rewrite !lookup_insert_eq.
  split; [done|]. split; [done|]. split; [done|]. split; [done|]. split; [done|].
  intros Hwr. unfold _save_modified_times. rewrite Hwr. simpl.
  eexists. split; [done|]. unfold combined_data. rewrite map_lookup_imap. simpl.
  by rewrite !lookup_insert_eq.
Qed.

(** X13: after a successful conversion the record agrees with the two files:
    the recorded source time is the source file's, the recorded module time
    is the module file's, which is the time of this write; and when the
    record file could be written it holds the same pair. *)
Theorem convert_excel_file_records (env : Env) (w : World) (stem path : string) :
  fst (convert_excel_file env w stem) = Some path →
  let w' := snd (convert_excel_file env w stem) in
  ∃ xf cf,
    excel_files w' !! stem = Some xf ∧
    code_files w' !! stem = Some cf ∧
    cf_mtime cf = env_clock env ∧
    excel_modified_time w' !! stem = Some (xl_mtime xf) ∧
    module_modified_time w' !! stem = Some (cf_mtime cf) ∧
    (env_times_writable env = true →
       ∃ data, times_file w' = Some data ∧
               data !! stem = Some (xl_mtime xf, cf_mtime cf)).
Proof. apply convert_success_records. Qed.

(** No conversion when neither file is newer than its record. *)
Lemma convert_excel_file_skip (env : Env) (w : World) (stem : string)
    (xf : ExcelFile) (cf : CodeFile) (last_excel last_module : Z) :
  excel_files w !! stem = Some xf →
  code_files w !! stem = Some cf →
  excel_modified_time w !! stem = Some last_excel →
  module_modified_time w !! stem = Some last_module →
  last_excel ≠ 0 → xl_mtime xf ≤ last_excel → cf_mtime cf ≤ last_module →
  convert_excel_file env w stem = (None, w).
Proof.
  intros Hxf Hcf He Hm Hnz Hle1 Hle2. unfold convert_excel_file.
  rewrite Hxf, Hcf, He, Hm. cbn [default id].
  destruct (Z.eqb_spec last_excel 0) as [?|_]; [done|].
  destruct (Z.gtb_spec (xl_mtime xf) last_excel) as [?|_]; [lia|].
  destruct (Z.gtb_spec (cf_mtime cf) last_module) as [?|_]; [lia|].
  destruct (bool_decide _) eqn:Hex; [reflexivity|].
  apply bool_decide_eq_false in Hex. destruct Hex. eauto.
Qed.

(** X14: converting twice is converting once.  After a successful conversion
    of a source file whose modification time is not zero, a second
    conversion, whatever it finds around it, returns nothing and changes
    nothing. *)
Theorem convert_excel_file_twice (env env' : Env) (w : World) (stem path : string)
    (xf : ExcelFile) :
  excel_files w !! stem = Some xf →
  xl_mtime xf ≠ 0 →
  fst (convert_excel_file env w stem) = Some path →
  let w' := snd (convert_excel_file env w stem) in
  convert_excel_file env' w' stem = (None, w').
Proof.
  intros Hxf Hnz Hok. cbv zeta.
  destruct (convert_success_records env w stem path Hok)
    as (xf' & cf & Hxf' & Hcf & _ & He & Hm & _).
  pose proof (convert_frame env w stem) as (Hfiles & _).
  rewrite Hfiles, Hxf in Hxf'. injection Hxf' as <-.
  apply (convert_excel_file_skip env' _ stem xf cf (xl_mtime xf) (cf_mtime cf));
    [by rewrite Hfiles|done|done|done|done|lia|lia].
Qed.

(** ** The record file across a restart *)

Lemma combined_data_fst (w : World) : fst <$> combined_data w = excel_modified_time w.
Proof.
  apply map_eq. intros c. unfold combined_data.
  rewrite lookup_fmap, map_lookup_imap.
  by destruct (excel_modified_time w !! c).
Qed.

Lemma combined_data_snd (w : World) (c : string) :
  (snd <$> combined_data w) !! c
  = (λ _, default 0 (module_modified_time w !! c)) <$> excel_modified_time w !! c.
Proof.
  unfold combined_data. rewrite lookup_fmap, map_lookup_imap.
  by destruct (excel_modified_time w !! c).
Qed.

(** X15: what is saved is what is loaded.  When the record file is written and
    the process starts anew, the recorded source times are all back, the
    recorded module time of every config with a source time reads as before,
    and nothing is loaded yet. *)
Theorem save_then_start (env : Env) (w : World) :
  env_times_writable env = true →
  let w' := process_start (_save_modified_times env w) in
  excel_modified_time w' = excel_modified_time w ∧
  (∀ c, is_Some (excel_modified_time w !! c) →
        module_modified_time w' !! c = Some (default 0 (module_modified_time w !! c))) ∧
  (∀ c, excel_modified_time w !! c = None → module_modified_time w' !! c = None) ∧
  loaded_modules w' = ∅ ∧ last_modified w' = ∅ ∧
  excel_files w' = excel_files w ∧ code_files w' = code_files w.
Proof.
  intros Hwr. cbv zeta. unfold process_start, _load_modified_times, _save_modified_times.
  rewrite Hwr. simpl. rewrite !(right_id_L ∅ (∪)), combined_data_fst.
  split; [done|]. split; [|split; [|done]].
  - intros c [e He]. by rewrite combined_data_snd, He.
  - intros c He. by rewrite combined_data_snd, He.
Qed.

(** X16: a conversion is remembered across a restart.  After a successful
    conversion that could write the record file, of a source file whose
    modification time is not zero, the process may start anew: converting
    again returns nothing and changes nothing. *)
Theorem convert_after_restart (env env' : Env) (w : World) (stem path : string)
    (xf : ExcelFile) :
  excel_files w !! stem = Some xf →
  xl_mtime xf ≠ 0 →
  env_times_writable env = true →
  fst (convert_excel_file env w stem) = Some path →
  let w' := process_start (snd (convert_excel_file env w stem)) in
  convert_excel_file env' w' stem = (None, w').
Proof.
  intros Hxf Hnz Hwr Hok. cbv zeta.
  destruct (convert_success_records env w stem path Hok)
    as (xf' & cf & Hxf' & Hcf & _ & _ & _ & Hsaved).
  destruct (Hsaved Hwr) as (data & Hdata & Hstem).
  pose proof (convert_frame env w stem) as (Hfiles & _).
  rewrite Hfiles, Hxf in Hxf'. injection Hxf' as <-.
  apply (convert_excel_file_skip env' _ stem xf cf (xl_mtime xf) (cf_mtime cf)).
  - unfold process_start, _load_modified_times. simpl. rewrite Hdata. simpl.
    by rewrite Hfiles.
  - unfold process_start, _load_modified_times. simpl. by rewrite Hdata.
  - unfold process_start, _load_modified_times. simpl. rewrite Hdata. simpl.
    by rewrite (right_id_L ∅ (∪)), lookup_fmap, Hstem.
  - unfold process_start, _load_modified_times. simpl. rewrite Hdata. simpl.
    by rewrite (right_id_L ∅ (∪)), lookup_fmap, Hstem.
  - done.
  - lia.
  - lia.
Qed.

(** ** [convert_all_excel_files] *)

Lemma listed_excel_files_NoDup (w : World) : NoDup (listed_excel_files w).*1.
Proof.
  unfold listed_excel_files.
  pose proof (NoDup_fst_map_to_list (excel_files w)) as Hnd.
  induction (map_to_list (excel_files w)) as [|f l IH]; [constructor|].
  rewrite filter_cons. apply NoDup_cons in Hnd as [Hnotin Hnd].
  destruct (decide _); [|by apply IH].
  rewrite fmap_cons. apply NoDup_cons. split; [|by apply IH].
  intros (g & Hfg & Hg)%list_elem_of_fmap. apply Hnotin.
  apply list_elem_of_filter in Hg as [_ Hg].
  rewrite Hfg. by apply list_elem_of_fmap_2.
Qed.

Lemma elem_of_listed_excel_files (w : World) (c : string) (xf : ExcelFile) :
  (c, xf) ∈ listed_excel_files w ↔ excel_files w !! c = Some xf ∧ is_temp_file c = false.
Proof.
  unfold listed_excel_files. rewrite list_elem_of_filter, elem_of_map_to_list. simpl.
  tauto.
Qed.

Lemma convert_all_step_inv (envs : string → Env) (w : World) (seen : list string)
    (acc : gmap string string * World) (f : string * ExcelFile) :
  convert_all_inv envs w seen acc →
  convert_all_inv envs w (seen ++ [fst f]) (convert_all_step envs acc f).
Proof.
  intros (Hx & Hl & Hlm & Hres & Hframe).
  destruct (convert_frame (envs (fst f)) (snd acc) (fst f)) as (Hx' & Hl' & Hlm' & Hother).
  unfold convert_all_step, convert_all_inv. simpl.
  split; [congruence|]. split; [congruence|]. split; [congruence|]. split.
  - intros c path.
    destruct (fst (convert_excel_file (envs (fst f)) (snd acc) (fst f))) as [p|] eqn:Hp.
    + destruct (convert_success_records _ _ _ _ Hp) as (xf & cf & _ & Hcf & Hclock & _).
      apply convert_excel_file_success in Hp as (_ & _ & _ & _ & _ & _ & -> & _).
      destruct (decide (fst f = c)) as [<-|Hne].
      * rewrite lookup_insert_eq. intros [= <-]. split; [done|].
        split; [apply elem_of_app; right; left|]. by exists cf.
      * rewrite lookup_insert_ne by done. intros Hc.
        destruct (Hres c path Hc) as (-> & Hin & cf' & Hcf' & Hclock').
        split; [done|]. split; [apply elem_of_app; by left|].
        exists cf'. destruct (Hother c) as (-> & _); [done|]. done.
    + intros Hc. destruct (Hres c path Hc) as (-> & Hin & cf' & Hcf' & Hclock').
      split; [done|]. split; [apply elem_of_app; by left|].
      exists cf'. split; [|done].
      destruct (convert_excel_file_cases (envs (fst f)) (snd acc) (fst f))
        as [Hnone|(? & ? & _ & _ & _ & _ & Hsome)].
      * by rewrite Hnone.
      * by rewrite Hsome in Hp.
  - intros c Hc. apply not_elem_of_app in Hc as [Hc Hf].
    apply not_elem_of_cons in Hf as [Hf _].
    destruct (Hother c) as (-> & -> & ->); [done|]. by apply Hframe.
Qed.

Lemma convert_all_fold_inv (envs : string → Env) (w : World) (l : list (string * ExcelFile))
    (seen : list string) (acc : gmap string string * World) :
  convert_all_inv envs w seen acc →
  convert_all_inv envs w (seen ++ l.*1) (foldl (convert_all_step envs) acc l).
Proof.
  revert seen acc. induction l as [|f l IH]; intros seen acc Hinv.
  - simpl. by rewrite app_nil_r.
  - cbn [foldl]. rewrite fmap_cons, cons_middle, app_assoc.
    apply IH. by apply convert_all_step_inv.
Qed.

Lemma convert_all_facts (envs : string → Env) (w : World) :
  let results := fst (convert_all_excel_files envs w) in
  let w' := snd (convert_all_excel_files envs w) in
  (∀ c path, results !! c = Some path →
     path = code_path c ∧ is_Some (excel_files w !! c) ∧ is_temp_file c = false ∧
     ∃ cf, code_files w' !! c = Some cf ∧ cf_mtime cf = env_clock (envs c)) ∧
  (∀ c, excel_files w !! c = None ∨ is_temp_file c = true →
     code_files w' !! c = code_files w !! c ∧
     excel_modified_time w' !! c = excel_modified_time w !! c ∧
     module_modified_time w' !! c = module_modified_time w !! c) ∧
  excel_files w' = excel_files w ∧
  loaded_modules w' = loaded_modules w ∧
  last_modified w' = last_modified w.
Proof.
  cbv zeta. unfold convert_all_excel_files.
  destruct (convert_all_fold_inv envs w (listed_excel_files w) [] (∅, w))
    as (Hx & Hl & Hlm & Hres & Hframe).
  { unfold convert_all_inv. simpl. repeat split; try done.
    all: intros c path; by rewrite lookup_empty. }
  simpl in *. split; [|split; [|done]].
  - intros c path Hc. destruct (Hres c path Hc) as (-> & Hin & Hcf).
    apply list_elem_of_fmap in Hin as ([c' xf] & -> & Hin).
    apply elem_of_listed_excel_files in Hin as [Hxf Htemp]. simpl. eauto.
  - intros c Hc. apply Hframe.
    intros ([c' xf] & -> & Hin)%list_elem_of_fmap.
    apply elem_of_listed_excel_files in Hin as [Hxf Htemp]. simpl in *.
    destruct Hc; congruence.
Qed.

(** X17: the results of a conversion of all files name only source files that
    are there and are not temporary, each with the path of its module, and
    that module file is there afterwards, written at the conversion of its
    source.  Configs without a listed source file keep their module file and
    their recorded times; no source file, loaded module or time of last load
    is touched. *)
Theorem convert_all_excel_files_results (envs : string → Env) (w : World) :
  let results := fst (convert_all_excel_files envs w) in
  let w' := snd (convert_all_excel_files envs w) in
  (∀ c path, results !! c = Some path →
     path = code_path c ∧ is_Some (excel_files w !! c) ∧ is_temp_file c = false ∧
     ∃ cf, code_files w' !! c = Some cf ∧ cf_mtime cf = env_clock (envs c)) ∧
  (∀ c, excel_files w !! c = None ∨ is_temp_file c = true →
     code_files w' !! c = code_files w !! c ∧
     excel_modified_time w' !! c = excel_modified_time w !! c ∧
     module_modified_time w' !! c = module_modified_time w !! c) ∧
  excel_files w' = excel_files w ∧
  loaded_modules w' = loaded_modules w ∧
  last_modified w' = last_modified w.
Proof. apply convert_all_facts. Qed.

(** ** Names: prefixes, suffixes, upper case *)

Lemma str_length_app (a b : string) :
  String.length (a +:+ b) = (String.length a + String.length b)%nat.
Proof. induction a as [|x a IH]; [done|]. rewrite str_app_cons. simpl. by rewrite IH. Qed.

Lemma substring_0_length (s : string) : substring 0 (String.length s) s = s.
Proof. induction s as [|x s IH]; [done|]. simpl. by rewrite IH. Qed.

Lemma substring_0_app (a b : string) : substring 0 (String.length a) (a +:+ b) = a.
Proof. induction a as [|x a IH]; simpl; [by destruct b|]. by rewrite IH. Qed.

Lemma substring_app_r (a b : string) (n : nat) :
  substring (String.length a) n (a +:+ b) = substring 0 n b.
Proof. induction a as [|x a IH]; [done|]. simpl. by rewrite IH. Qed.

Lemma str_prefix_app (a b : string) : String.prefix a (a +:+ b) = true.
Proof. apply prefix_correct, substring_0_app. Qed.

Lemma str_endswith_app (a suffix : string) : str_endswith suffix (a +:+ suffix) = true.
Proof.
  unfold str_endswith. rewrite str_length_app.
  replace (String.length a + String.length suffix - String.length suffix)%nat
    with (String.length a) by lia.
  rewrite substring_app_r, substring_0_length, String.eqb_refl, andb_true_r.
  apply Nat.leb_le. lia.
Qed.

Lemma str_drop_end_app (a suffix : string) :
  str_drop_end (String.length suffix) (a +:+ suffix) = a.
Proof.
  unfold str_drop_end. rewrite str_length_app.
  replace (String.length a + String.length suffix - String.length suffix)%nat
    with (String.length a) by lia.
  apply substring_0_app.
Qed.

Lemma str_drop_app (a b : string) : str_drop (String.length a) (a +:+ b) = b.
Proof.
  unfold str_drop. rewrite str_length_app.
  replace (String.length a + String.length b - String.length a)%nat
    with (String.length b) by lia.
  by rewrite substring_app_r, substring_0_length.
Qed.

Lemma ascii_upper_idemp (a : ascii) : ascii_upper (ascii_upper a) = ascii_upper a.
Proof. by destruct a as [[] [] [] [] [] [] [] []]. Qed.

Lemma upper_idemp (s : string) : upper (upper s) = upper s.
Proof.
  induction s as [|a s IH]; [done|]. unfold upper in *. simpl.
  by rewrite ascii_upper_idemp, IH.
Qed.

(** ** [list_configs] *)

Lemma config_name_of_code_stem (config_name : string) :
  config_name_of_stem (code_stem config_name) = config_name.
Proof.
  unfold config_name_of_stem, code_stem.
  rewrite str_endswith_app. apply (str_drop_end_app config_name "_config").
Qed.

(** X18: the name of a config is read back from the name of its module file,
    also when the name itself holds or ends with [_config]: only the last
    [_config] is taken off.  So the listed configs are exactly the configs
    that have a module file. *)
Theorem list_configs_names (w : World) :
  (∀ config_name, config_name_of_stem (code_stem config_name) = config_name) ∧
  list_configs w = (map_to_list (code_files w)).*1 ∧
  ∀ c, c ∈ list_configs w ↔ is_Some (code_files w !! c).
Proof.
  split; [apply config_name_of_code_stem|].
  assert (list_configs w = (map_to_list (code_files w)).*1) as Heq.
  { unfold list_configs. apply list_fmap_ext. intros i f _.
    apply config_name_of_code_stem. }
  split; [done|]. intros c. rewrite Heq. split.
  - intros ([c' cf] & -> & Hin)%list_elem_of_fmap.
    apply elem_of_map_to_list in Hin. simpl. eauto.
  - intros [cf Hcf]. apply list_elem_of_fmap. exists (c, cf). split; [done|].
    by apply elem_of_map_to_list.
Qed.

(** ** [list_sheets] *)

Lemma sheet_name_of_generated_attr (config_name sheet_name : string) :
  sheet_name_of_attr config_name (sheet_var_name config_name sheet_name)
  = Some (upper sheet_name).
Proof.
  unfold sheet_name_of_attr, sheet_var_name.
  set (attr := upper config_name +:+ "_" +:+ upper sheet_name +:+ "_CONFIG").
  assert (attr = (upper config_name +:+ "_" +:+ upper sheet_name) +:+ "_CONFIG") as Hsuffix
    by (subst attr; by rewrite !str_app_assoc).
  assert (attr = (upper config_name +:+ "_") +:+ (upper sheet_name +:+ "_CONFIG")) as Hprefix
    by (subst attr; by rewrite !str_app_assoc).
  assert (str_endswith "_CONFIG" attr = true) as ->
    by (rewrite Hsuffix; apply str_endswith_app).
  assert (String.prefix (upper config_name) attr = true) as -> by apply str_prefix_app.
  assert (String.prefix (upper config_name +:+ "_") attr = true) as ->
    by (rewrite Hprefix; apply str_prefix_app).
  assert (str_drop (String.length (upper config_name +:+ "_")) attr
          = upper sheet_name +:+ "_CONFIG") as ->
    by (rewrite Hprefix; apply str_drop_app).
  cbn [andb]. rewrite str_endswith_app.
  f_equal. apply (str_drop_end_app (upper sheet_name) "_CONFIG").
Qed.

Lemma elem_of_dir (m : gmap string pyval) (name : string) :
  name ∈ dir m ↔ is_Some (m !! name).
Proof.
  unfold dir, module. rewrite merge_sort_Permutation. split.
  - intros ([n v] & -> & Hin)%list_elem_of_fmap.
    apply elem_of_map_to_list in Hin. simpl. eauto.
  - intros [v Hv]. apply list_elem_of_fmap. exists (name, v). split; [done|].
    by apply elem_of_map_to_list.
Qed.

(** X19: the sheets of a generated module are listed, in upper case, and a
    listed name leads back to the sheet: for a module with the constant of
    sheet [sheet_name], the upper-cased name is among the listed sheets, and
    looking the sheet up under that name reads the same constant. *)
Theorem list_sheets_generated (env : Env) (w : World) (config_name sheet_name : string)
    (m : module) (v : pyval) :
  fst (get_config env w config_name) = Some m →
  m !! sheet_var_name config_name sheet_name = Some v →
  upper sheet_name ∈ fst (list_sheets env w config_name) ∧
  sheet_var_name config_name (upper sheet_name) = sheet_var_name config_name sheet_name ∧
  fst (get_config_sheet env w config_name (upper sheet_name)) = Some v.
Proof.
  intros Hm Hv.
  assert (sheet_var_name config_name (upper sheet_name)
          = sheet_var_name config_name sheet_name) as Hname
    by (unfold sheet_var_name; by rewrite upper_idemp).
  split; [|split; [done|]].
  - unfold list_sheets. destruct (get_config env w config_name) as [m' w'].
    simpl in Hm. subst m'. simpl.
    apply list_elem_of_omap. exists (sheet_var_name config_name sheet_name).
    split; [apply elem_of_dir; eauto|apply sheet_name_of_generated_attr].
  - unfold get_config_sheet. destruct (get_config env w config_name) as [m' w'].
    simpl in Hm. subst m'. simpl. by rewrite Hname.
Qed.

(** ** Loading and reloading *)

(** The state [reload_config] hands to the loader. *)
Lemma reload_config_unfold (env : Env) (w : World) (c : string) :
  ∃ w1,
    (w1 = w ∨ w1 = snd (convert_excel_file env w c)) ∧
    reload_config env w c =
      match code_files w1 !! c with
      | Some cf => (bool_decide (is_Some (fst (_load_config_module w1 c cf))),
                    snd (_load_config_module w1 c cf))
      | None => (false, w1)
      end.
Proof.
  unfold reload_config.
  exists (if excel_is_newer w c then snd (convert_excel_file env w c) else w).
  split; [destruct (excel_is_newer w c); auto|].
  destruct (code_files _ !! c) as [cf|]; [|done].
  by destruct (_load_config_module _ c cf).
Qed.

Lemma load_config_module_facts (w : World) (c : string) (cf : CodeFile) :
  let r := _load_config_module w c cf in
  excel_files (snd r) = excel_files w ∧
  code_files (snd r) = code_files w ∧
  staleness (snd r) = staleness w ∧
  (∀ m, fst r = Some m → loaded_modules (snd r) !! c = Some m) ∧
  (∀ c', is_Some (loaded_modules w !! c') → is_Some (loaded_modules (snd r) !! c')) ∧
  (∀ c', c' ≠ c →
     loaded_modules (snd r) !! c' = loaded_modules w !! c' ∧
     last_modified (snd r) !! c' = last_modified w !! c') ∧
  (cache_coherent w → cache_coherent (snd r)).
Proof.
  cbv zeta. unfold _load_config_module.
  destruct (load_is_cached w c cf); simpl.
  { repeat split; done. }
  destruct (exec_module (cf_text cf)) as [m|]; simpl; [|repeat split; done].
  split; [done|]. split; [done|]. split; [done|]. split; [|split; [|split]].
  - intros m' [= <-]. apply lookup_insert_eq.
  - intros c' Hc'. destruct (decide (c = c')) as [<-|Hne].
    + rewrite lookup_insert_eq. eauto.
    + by rewrite lookup_insert_ne.
  - intros c' Hne. by rewrite !lookup_insert_ne.
  - intros Hcoh c'. unfold cache_coherent in *. simpl.
    destruct (decide (c = c')) as [<-|Hne].
    + rewrite !lookup_insert_eq. eauto.
    + rewrite !lookup_insert_ne by done. apply Hcoh.
Qed.

Lemma convert_cache_coherent (env : Env) (w : World) (c : string) :
  cache_coherent w → cache_coherent (snd (convert_excel_file env w c)).
Proof.
  intros Hcoh c'. unfold cache_coherent in *.
  destruct (convert_frame env w c) as (_ & -> & -> & _). apply Hcoh.
Qed.

Lemma reload_config_facts (env : Env) (w : World) (c : string) :
  let r := reload_config env w c in
  excel_files (snd r) = excel_files w ∧
  (fst r = true → is_Some (loaded_modules (snd r) !! c)) ∧
  (∀ c', is_Some (loaded_modules w !! c') → is_Some (loaded_modules (snd r) !! c')) ∧
  (∀ c', c' ≠ c →
     loaded_modules (snd r) !! c' = loaded_modules w !! c' ∧
     last_modified (snd r) !! c' = last_modified w !! c' ∧
     code_files (snd r) !! c' = code_files w !! c' ∧
     excel_modified_time (snd r) !! c' = excel_modified_time w !! c' ∧
     module_modified_time (snd r) !! c' = module_modified_time w !! c') ∧
  (cache_coherent w → cache_coherent (snd r)) ∧
  (∀ c0, excel_files w !! c0 = None → code_files (snd r) !! c0 = code_files w !! c0).
Proof.
  cbv zeta. destruct (reload_config_unfold env w c) as (w1 & Hw1 & ->).
  assert (excel_files w1 = excel_files w ∧
          loaded_modules w1 = loaded_modules w ∧
          last_modified w1 = last_modified w ∧
          (∀ c', c' ≠ c →
             code_files w1 !! c' = code_files w !! c' ∧
             excel_modified_time w1 !! c' = excel_modified_time w !! c' ∧
             module_modified_time w1 !! c' = module_modified_time w !! c') ∧
          (cache_coherent w → cache_coherent w1) ∧
          (∀ c0, excel_files w !! c0 = None → code_files w1 !! c0 = code_files w !! c0))
    as (Hx & Hl & Hlm & Hothers & Hcoh & Hnosrc).
  { destruct Hw1 as [->| ->]; [done|].
    destruct (convert_frame env w c) as (? & ? & ? & Hoth).
    split; [done|]. split; [done|]. split; [done|]. split; [done|].
    split; [apply convert_cache_coherent|].
    intros c0 Hc0. destruct (decide (c0 = c)) as [->|Hne]; [|by apply Hoth].
    destruct (convert_excel_file_cases env w c)
      as [->|(? & ? & ? & _)]; [done|congruence]. }
  destruct (code_files w1 !! c) as [cf|] eqn:Hcf; simpl.
  - destruct (load_config_module_facts w1 c cf) as (Hx' & Hc' & Hs' & Hm & Hmono & Hoth & Hcoh').
    split; [congruence|]. split; [|split; [|split; [|split]]].
    + intros Hr%bool_decide_eq_true. destruct Hr as [m Hm']. rewrite (Hm m Hm'). eauto.
    + intros c' Hc. apply Hmono. by rewrite Hl.
    + intros c' Hne. destruct (Hoth c' Hne) as [-> ->].
      destruct (Hothers c' Hne) as (? & ? & ?).
      injection Hs' as He Hmo _.
      rewrite Hc', Hl, Hlm. unfold staleness in *. simpl in *.
      repeat split; congruence.
    + auto.
    + intros c0 Hc0. rewrite Hc'. by apply Hnosrc.
  - split; [done|]. split; [done|]. split; [|split; [|split]].
    + intros c'. by rewrite Hl.
    + intros c' Hne. destruct (Hothers c' Hne) as (? & ? & ?).
      rewrite Hl, Hlm. done.
    + done.
    + done.
Qed.

(** X20: a reload that says true has the module loaded, and no reload ever
    unloads: whatever was loaded before, for this config or another, is
    still loaded (perhaps anew) afterwards, and the other configs' modules
    and times of last load are as they were. *)
Theorem reload_config_loads (env : Env) (w : World) (c : string) :
  let r := reload_config env w c in
  (fst r = true → is_Some (loaded_modules (snd r) !! c)) ∧
  (∀ c', is_Some (loaded_modules w !! c') → is_Some (loaded_modules (snd r) !! c')) ∧
  (∀ c', c' ≠ c →
     loaded_modules (snd r) !! c' = loaded_modules w !! c' ∧
     last_modified (snd r) !! c' = last_modified w !! c').
Proof.
  cbv zeta. destruct (reload_config_facts env w c) as (_ & Hload & Hmono & Hoth & _ & _).
  split; [done|]. split; [done|]. intros c' Hne. by destruct (Hoth c' Hne) as (? & ? & _).
Qed.

Lemma process_start_coherent (w : World) : cache_coherent (process_start w).
Proof.
  intros c. unfold process_start, _load_modified_times. simpl.
  destruct (times_file w); simpl; rewrite lookup_empty; by intros [? ?].
Qed.

(** X21: a time of last load is only ever kept for a module that is loaded.
    This holds when a process starts and is kept by every conversion, every
    reload and every read through the accessor. *)
Theorem cache_coherent_invariant (env : Env) (w : World) (c sheet_name : string) (key : cell) :
  cache_coherent (process_start w) ∧
  (cache_coherent w →
     cache_coherent (snd (convert_excel_file env w c)) ∧
     cache_coherent (snd (reload_config env w c)) ∧
     cache_coherent (snd (get_config_value env w c sheet_name key))).
Proof.
  split; [apply process_start_coherent|]. intros Hcoh.
  destruct (reload_config_facts env w c) as (_ & _ & _ & _ & Hr & _).
  split; [by apply convert_cache_coherent|]. split; [by apply Hr|].
  unfold get_config_value, get_config_sheet, get_config.
  destruct (loaded_modules (snd (reload_config env w c)) !! c ≫= _) as [sheet|]; simpl;
    [|by apply Hr].
  destruct (truthy sheet); [|by apply Hr].
  destruct sheet; by apply Hr.
Qed.

(** ** Reading what is not there *)

(** X22: a read never fails for what is missing.  A config that is not loaded
    after the reload, a sheet the module has no constant for, a key the
    sheet has no entry for: each gives [None] (an empty sheet gives the empty
    dictionary itself).  And for a config with no source file, no module
    file and nothing loaded, the read leaves the state as it was. *)
Theorem get_config_value_absent (env : Env) (w : World) (c sheet_name : string) (key : cell) :
  let r := get_config_value env w c sheet_name key in
  (loaded_modules (snd r) !! c = None → fst r = Returns VNone) ∧
  (∀ m, loaded_modules (snd r) !! c = Some m →
        m !! sheet_var_name c sheet_name = None → fst r = Returns VNone) ∧
  (∀ m d, loaded_modules (snd r) !! c = Some m →
          m !! sheet_var_name c sheet_name = Some (VDict d) →
          fst r = Returns (match d with
                           | [] => VDict []
                           | _ => default VNone (dict_get key d)
                           end)) ∧
  (excel_files w !! c = None → code_files w !! c = None →
   loaded_modules w !! c = None → r = (Returns VNone, w)).
Proof.
  cbv zeta. unfold get_config_value, get_config_sheet, get_config.
  set (w' := snd (reload_config env w c)).
  assert (∀ o : option pyval,
            snd (match o with
                 | Some sheet =>
                     if truthy sheet
                     then match sheet with
                          | VDict d => (Returns (default VNone (dict_get key d)), w')
                          | _ => (Raises, w')
                          end
                     else (Returns sheet, w')
                 | None => (Returns VNone, w')
                 end) = w') as Hsnd.
  { intros [sheet|]; [|done]. destruct (truthy sheet); [|done]. by destruct sheet. }
  rewrite Hsnd. split; [|split; [|split]].
  - by intros ->.
  - intros m -> Hsheet. simpl. by rewrite Hsheet.
  - intros m d -> Hsheet. simpl. rewrite Hsheet. simpl. by destruct d.
  - intros Hx Hc Hl. subst w'. unfold reload_config, excel_is_newer.
    rewrite Hx, Hc. simpl. by rewrite Hl.
Qed.

(** ** [reload_all_configs] *)

Lemma reload_all_step_inv (envs : string → Env) (w : World) (seen : list string)
    (acc : gmap string bool * World) (f : string * CodeFile) :
  reload_all_inv w seen acc →
  reload_all_inv w (seen ++ [fst f]) (reload_all_step envs acc f).
Proof.
  intros (Hx & Hres & Hmono & Hnosrc). unfold reload_all_step, reload_all_inv.
  rewrite config_name_of_code_stem.
  destruct (reload_config_facts (envs (fst f)) (snd acc) (fst f))
    as (Hx' & Hload & Hmono' & _ & _ & Hnosrc').
  simpl. split; [congruence|]. split; [|split].
  - intros c b.
    destruct (fst (reload_config (envs (fst f)) (snd acc) (fst f))) eqn:Hr.
    + destruct (decide (fst f = c)) as [<-|Hne].
      * rewrite lookup_insert_eq. intros [= <-]. split; [done|].
        split; [apply elem_of_app; right; left|by apply Hload].
      * rewrite lookup_insert_ne by done. intros Hc.
        destruct (Hres c b Hc) as (-> & Hin & Hl).
        split; [done|]. split; [apply elem_of_app; by left|by apply Hmono'].
    + intros Hc. destruct (Hres c b Hc) as (-> & Hin & Hl).
      split; [done|]. split; [apply elem_of_app; by left|by apply Hmono'].
  - intros c Hc. by apply Hmono', Hmono.
  - intros c Hc. rewrite Hnosrc' by by rewrite Hx. by apply Hnosrc.
Qed.

Lemma reload_all_fold_inv (envs : string → Env) (w : World) (l : list (string * CodeFile))
    (seen : list string) (acc : gmap string bool * World) :
  reload_all_inv w seen acc →
  reload_all_inv w (seen ++ l.*1) (foldl (reload_all_step envs) acc l).
Proof.
  revert seen acc. induction l as [|f l IH]; intros seen acc Hinv.
  - simpl. by rewrite app_nil_r.
  - cbn [foldl]. rewrite fmap_cons, cons_middle, app_assoc.
    apply IH. by apply reload_all_step_inv.
Qed.

Lemma reload_all_facts (envs : string → Env) (w : World) :
  (∀ c b, fst (reload_all_configs envs w) !! c = Some b →
     b = true ∧ is_Some (code_files w !! c) ∧
     is_Some (loaded_modules (snd (reload_all_configs envs w)) !! c)) ∧
  (∀ c, is_Some (loaded_modules w !! c) →
        is_Some (loaded_modules (snd (reload_all_configs envs w)) !! c)) ∧
  excel_files (snd (reload_all_configs envs w)) = excel_files w ∧
  (∀ c, excel_files w !! c = None →
        code_files (snd (reload_all_configs envs w)) !! c = code_files w !! c).
Proof.
  unfold reload_all_configs.
  destruct (reload_all_fold_inv envs w (map_to_list (code_files w)) [] (∅, w))
    as (Hx & Hres & Hmono & Hnosrc).
  { unfold reload_all_inv. simpl. split; [done|]. split; [|done].
    intros c b. by rewrite lookup_empty. }
  simpl in *. split; [|done].
  intros c b Hc. destruct (Hres c b Hc) as (-> & Hin & Hl).
  split; [done|]. split; [|done].
  apply list_elem_of_fmap in Hin as ([c' cf] & -> & Hin).
  apply elem_of_map_to_list in Hin. simpl. eauto.
Qed.

(** X23: after all configs are reloaded, every config in the results is one
    with a module file, is entered as true, and is loaded; whatever was
    loaded before still is; no source file is touched, and a config without
    source file keeps its module file as it was. *)
Theorem reload_all_configs_results (envs : string → Env) (w : World) :
  let results := fst (reload_all_configs envs w) in
  let w' := snd (reload_all_configs envs w) in
  (∀ c b, results !! c = Some b →
     b = true ∧ is_Some (code_files w !! c) ∧ is_Some (loaded_modules w' !! c)) ∧
  (∀ c, is_Some (loaded_modules w !! c) → is_Some (loaded_modules w' !! c)) ∧
  excel_files w' = excel_files w ∧
  (∀ c, excel_files w !! c = None → code_files w' !! c = code_files w !! c).
Proof. cbv zeta. apply reload_all_facts. Qed.

(** ** The report of the global check *)

Lemma check_excel_file_status (w : World) (result : Report) (c : string) (xf : ExcelFile) :
  d_status <$> details (check_excel_file w result c xf) !! c = Some (source_status w c xf) ∧
  all_up_to_date (check_excel_file w result c xf)
  = all_up_to_date result && bool_decide (source_status w c xf = StatusUpToDate) ∧
  (∀ c', c' ≠ c → details (check_excel_file w result c xf) !! c' = details result !! c') ∧
  missing_excel_files (check_excel_file w result c xf) = missing_excel_files result ∧
  total_configs (check_excel_file w result c xf) = total_configs result ∧
  (up_to_date_configs (check_excel_file w result c xf)
   + length (outdated_configs (check_excel_file w result c xf))
   + length (missing_code_files (check_excel_file w result c xf))
   = S (up_to_date_configs result + length (outdated_configs result)
        + length (missing_code_files result)))%nat.
Proof.
  unfold check_excel_file, source_status.
  destruct (code_files w !! c) as [cf|]; simpl.
  - destruct (negb _ && negb _ && negb _); simpl;
      rewrite lookup_insert_eq, ?length_app; simpl.
    + rewrite andb_true_r. repeat split; try done; try lia.
      intros c' Hne. by rewrite lookup_insert_ne.
    + rewrite andb_false_r. repeat split; try done; try lia.
      intros c' Hne. by rewrite lookup_insert_ne.
  - rewrite lookup_insert_eq, andb_false_r, length_app. simpl.
    repeat split; try done; try lia.
    intros c' Hne. by rewrite lookup_insert_ne.
Qed.

Lemma check_code_file_facts (w : World) (result : Report) (c : string) :
  all_up_to_date (check_code_file w result c)
  = all_up_to_date result && bool_decide (is_Some (excel_files w !! c)) ∧
  (∀ c', is_Some (excel_files w !! c') →
         details (check_code_file w result c) !! c' = details result !! c') ∧
  missing_excel_files (check_code_file w result c) = missing_excel_files result ∧
  total_configs (check_code_file w result c) = total_configs result ∧
  up_to_date_configs (check_code_file w result c) = up_to_date_configs result ∧
  outdated_configs (check_code_file w result c) = outdated_configs result ∧
  missing_code_files (check_code_file w result c) = missing_code_files result.
Proof.
  unfold check_code_file. destruct (excel_files w !! c) eqn:Hx; simpl.
  - by rewrite andb_true_r.
  - rewrite andb_false_r. repeat split; try done.
    intros c' [xf Hc']. apply lookup_insert_ne. congruence.
Qed.

Lemma check_loop_excel_facts (w : World) (l : list (string * ExcelFile)) (result : Report) :
  NoDup l.*1 →
  (∀ c xf, (c, xf) ∈ l →
     d_status <$> details (check_loop_excel w result l) !! c = Some (source_status w c xf)) ∧
  (∀ c, c ∉ l.*1 → details (check_loop_excel w result l) !! c = details result !! c) ∧
  (all_up_to_date (check_loop_excel w result l) = true ↔
   all_up_to_date result = true ∧
   ∀ c xf, (c, xf) ∈ l → source_status w c xf = StatusUpToDate) ∧
  missing_excel_files (check_loop_excel w result l) = missing_excel_files result ∧
  total_configs (check_loop_excel w result l) = total_configs result ∧
  (up_to_date_configs (check_loop_excel w result l)
   + length (outdated_configs (check_loop_excel w result l))
   + length (missing_code_files (check_loop_excel w result l))
   = up_to_date_configs result + length (outdated_configs result)
     + length (missing_code_files result) + length l)%nat.
Proof.
  revert result. induction l as [|[c0 xf0] l IH]; intros result Hnd.
  { simpl. split; [by intros c xf ?%elem_of_nil|]. split; [done|].
    split; [|split; [done|split; [done|lia]]].
    split; [|by intros [? _]].
    intros Ht. split; [done|]. by intros c xf ?%elem_of_nil. }
  apply NoDup_cons in Hnd as [Hnotin Hnd]. cbn [check_loop_excel foldl fst snd].
  fold (check_loop_excel w (check_excel_file w result c0 xf0) l).
  destruct (IH (check_excel_file w result c0 xf0) Hnd)
    as (Hst & Hoth & Hflag & Hmiss & Htot & Hcount).
  destruct (check_excel_file_status w result c0 xf0)
    as (Hst0 & Hflag0 & Hoth0 & Hmiss0 & Htot0 & Hcount0).
  split; [|split; [|split; [|split; [|split]]]].
  - intros c xf [[= -> ->]|Hin]%elem_of_cons; [|by apply Hst].
    rewrite Hoth by done. exact Hst0.
  - intros c Hc. apply not_elem_of_cons in Hc as [Hne Hc].
    rewrite Hoth by done. by apply Hoth0.
  - rewrite Hflag, Hflag0, andb_true_iff, bool_decide_eq_true. split.
    + intros [[? ?] Hall]. split; [done|].
      intros c xf [[= -> ->]|Hin]%elem_of_cons; [done|by apply Hall].
    + intros [? Hall]. split; [split; [done|]|].
      * apply Hall. left.
      * intros c xf Hin. apply Hall. by right.
  - congruence.
  - congruence.
  - rewrite Hcount, Hcount0. simpl. lia.
Qed.

Lemma check_loop_code_facts (w : World) (l : list (string * CodeFile)) (result : Report) :
  (∀ c, is_Some (excel_files w !! c) →
        details (check_loop_code w result l) !! c = details result !! c) ∧
  (all_up_to_date (check_loop_code w result l) = true ↔
   all_up_to_date result = true ∧
   ∀ c cf, (c, cf) ∈ l → is_Some (excel_files w !! c)) ∧
  missing_excel_files (check_loop_code w result l) = missing_excel_files result ∧
  total_configs (check_loop_code w result l) = total_configs result ∧
  up_to_date_configs (check_loop_code w result l) = up_to_date_configs result ∧
  outdated_configs (check_loop_code w result l) = outdated_configs result ∧
  missing_code_files (check_loop_code w result l) = missing_code_files result.
Proof.
  revert result. induction l as [|[c0 cf0] l IH]; intros result.
  { simpl. split; [done|]. split; [|done].
    split; [|by intros [? _]].
    intros Ht. split; [done|]. by intros c cf ?%elem_of_nil. }
  cbn [check_loop_code foldl fst]. fold (check_loop_code w (check_code_file w result c0) l).
  destruct (IH (check_code_file w result c0)) as (Hoth & Hflag & Hm & Ht & Hu & Ho & Hmc).
  destruct (check_code_file_facts w result c0) as (Hflag0 & Hoth0 & Hm0 & Ht0 & Hu0 & Ho0 & Hmc0).
  split; [|split].
  - intros c Hc. rewrite Hoth by done. by apply Hoth0.
  - rewrite Hflag, Hflag0, andb_true_iff, bool_decide_eq_true. split.
    + intros [[? ?] Hall]. split; [done|].
      intros c cf [[= -> ->]|Hin]%elem_of_cons; [done|by eapply Hall].
    + intros [? Hall]. split; [split; [done|]|].
      * eapply Hall. left.
      * intros c cf Hin. eapply Hall. by right.
  - repeat split; congruence.
Qed.

Lemma check_all_loops (w : World) :
  check_all_configs_up_to_date w
  = check_loop_code w
      (check_loop_excel w
         {| all_up_to_date := true;
            total_configs := length (listed_excel_files w);
            up_to_date_configs := 0;
            outdated_configs := [];
            missing_excel_files := [];
            missing_code_files := [];
            details := ∅ |}
         (listed_excel_files w))
      (map_to_list (code_files w)).
Proof. reflexivity. Qed.

Lemma check_all_entries_facts (w : World) (c : string) :
  let report := check_all_configs_up_to_date w in
  (∀ xf, excel_files w !! c = Some xf → is_temp_file c = false →
         d_status <$> details report !! c = Some (source_status w c xf)) ∧
  (excel_files w !! c = None → is_Some (code_files w !! c) →
   d_status <$> details report !! c = Some StatusOrphanedCodeFile) ∧
  ((excel_files w !! c = None ∧ code_files w !! c = None) ∨
   (is_Some (excel_files w !! c) ∧ is_temp_file c = true) →
   details report !! c = None).
Proof.
  cbv zeta. rewrite check_all_loops.
  set (r0 := {| all_up_to_date := true; details := ∅ |}).
  destruct (check_loop_excel_facts w (listed_excel_files w) r0 (listed_excel_files_NoDup w))
    as (Hst & Hoth & _).
  destruct (check_loop_code_facts w (map_to_list (code_files w))
              (check_loop_excel w r0 (listed_excel_files w))) as (Hkeep & _).
  assert (∀ c, c ∉ (listed_excel_files w).*1 →
               details (check_loop_excel w r0 (listed_excel_files w)) !! c = None) as Hnone.
  { intros c' Hc'. by rewrite Hoth. }
  split; [|split].
  - intros xf Hxf Htemp. rewrite Hkeep by eauto.
    apply Hst. by apply elem_of_listed_excel_files.
  - intros Hx [cf Hcf].
    destruct (check_code_files_orphan w (map_to_list (code_files w))
                (check_loop_excel w r0 (listed_excel_files w)) c cf) as [Hd _].
    + apply NoDup_fst_map_to_list.
    + by apply elem_of_map_to_list.
    + done.
    + unfold check_loop_code. by rewrite Hd.
  - intros Hcase.
    assert (c ∉ (listed_excel_files w).*1) as Hnl.
    { intros ([c' xf] & -> & Hin)%list_elem_of_fmap.
      apply elem_of_listed_excel_files in Hin as [Hxf Htemp]. simpl in *.
      destruct Hcase as [[? _]|[_ ?]]; congruence. }
    destruct Hcase as [[Hx Hc]|[Hx _]].
    + unfold check_loop_code. rewrite check_code_files_other.
      * by apply Hnone.
      * intros ([c' cf] & -> & Hin)%list_elem_of_fmap.
        apply elem_of_map_to_list in Hin. simpl in *. congruence.
    + rewrite Hkeep by done. by apply Hnone.
Qed.

(** X24: the report has one entry for every source file that is not
    temporary, with the status its files and records give it, one entry for
    every module file without a source file, filed as orphaned, and no entry
    for anything else. *)
Theorem check_all_entries (w : World) (c : string) :
  let report := check_all_configs_up_to_date w in
  (∀ xf, excel_files w !! c = Some xf → is_temp_file c = false →
         d_status <$> details report !! c = Some (source_status w c xf)) ∧
  (excel_files w !! c = None → is_Some (code_files w !! c) →
   d_status <$> details report !! c = Some StatusOrphanedCodeFile) ∧
  ((excel_files w !! c = None ∧ code_files w !! c = None) ∨
   (is_Some (excel_files w !! c) ∧ is_temp_file c = true) →
   details report !! c = None).
Proof. apply check_all_entries_facts. Qed.

Lemma check_all_flag_facts (w : World) :
  all_up_to_date (check_all_configs_up_to_date w) = true ↔
  (∀ c xf, excel_files w !! c = Some xf → is_temp_file c = false →
           source_status w c xf = StatusUpToDate) ∧
  (∀ c, is_Some (code_files w !! c) → is_Some (excel_files w !! c)).
Proof.
  rewrite check_all_loops.
  set (r0 := {| all_up_to_date := true; details := ∅ |}).
  destruct (check_loop_excel_facts w (listed_excel_files w) r0 (listed_excel_files_NoDup w))
    as (_ & _ & Hflag1 & _).
  destruct (check_loop_code_facts w (map_to_list (code_files w))
              (check_loop_excel w r0 (listed_excel_files w))) as (_ & Hflag2 & _).
  rewrite Hflag2, Hflag1. split.
  - intros [[_ Hall] Horph]. split.
    + intros c xf Hxf Htemp. apply Hall. by apply elem_of_listed_excel_files.
    + intros c [cf Hcf]. apply (Horph c cf). by apply elem_of_map_to_list.
  - intros [Hall Horph]. split; [split; [done|]|].
    + intros c xf [? ?]%elem_of_listed_excel_files. by apply Hall.
    + intros c cf Hin%elem_of_map_to_list. apply Horph. eauto.
Qed.

(** X25: the aggregate flag is true exactly when every source file that is
    not temporary is up to date and every module file has its source
    file. *)
Theorem check_all_flag (w : World) :
  all_up_to_date (check_all_configs_up_to_date w) = true ↔
  (∀ c xf, excel_files w !! c = Some xf → is_temp_file c = false →
           source_status w c xf = StatusUpToDate) ∧
  (∀ c, is_Some (code_files w !! c) → is_Some (excel_files w !! c)).
Proof. apply check_all_flag_facts. Qed.

(** X26: the counts of the report add up.  The total is the number of source
    files that are not temporary, each of them is counted once, as up to
    date, as outdated or as without module file, and no source file is ever
    reported missing. *)
Theorem check_all_counts (w : World) :
  let report := check_all_configs_up_to_date w in
  total_configs report = length (listed_excel_files w) ∧
  (total_configs report
   = up_to_date_configs report + length (outdated_configs report)
     + length (missing_code_files report))%nat ∧
  missing_excel_files report = [].
Proof.
  cbv zeta. rewrite check_all_loops.
  set (r0 := {| all_up_to_date := true; details := ∅ |}).
  destruct (check_loop_excel_facts w (listed_excel_files w) r0 (listed_excel_files_NoDup w))
    as (_ & _ & _ & Hm1 & Ht1 & Hc1).
  destruct (check_loop_code_facts w (map_to_list (code_files w))
              (check_loop_excel w r0 (listed_excel_files w)))
    as (_ & _ & Hm2 & Ht2 & Hu2 & Ho2 & Hmc2).
  rewrite Hm2, Ht2, Hu2, Ho2, Hmc2, Hm1, Ht1, Hc1. subst r0. simpl.
  split; [done|]. split; [lia|done].
Qed.

(** ** From an edited source to an up-to-date config *)

(** ** The start of the application *)

(** X28: a module file without its source file stops the start.  Whatever the
    conversions and reloads of the start do, the module file is still an
    orphan when the global check runs, and the aggregate flag is false. *)
Theorem startup_orphan_blocks (envs envs' : string → Env) (w : World) (c : string) :
  is_Some (code_files w !! c) →
  excel_files w !! c = None →
  fst (startup envs envs' w) = false.
Proof.
  intros Hcode Hx. unfold startup. simpl.
  destruct (convert_all_facts envs w) as (_ & Hframe & Hx1 & _).
  destruct (reload_all_facts envs' (snd (convert_all_excel_files envs w)))
    as (_ & _ & Hx2 & Hnosrc).
  set (w2 := snd (reload_all_configs envs' (snd (convert_all_excel_files envs w)))) in *.
  destruct (all_up_to_date (check_all_configs_up_to_date w2)) eqn:Hflag; [|done].
  apply check_all_flag_facts in Hflag as [_ Horph].
  destruct (Horph c) as [xf Hxf].
  - rewrite Hnosrc by by rewrite Hx1. by destruct (Hframe c) as (-> & _); [left|].
  - rewrite Hx2, Hx1 in Hxf. congruence.
Qed.

(** ** Conversions do not interfere *)

Lemma convert_local (env : Env) (w w' : World) (c : string) :
  local_state w c = local_state w' c →
  fst (convert_excel_file env w c) = fst (convert_excel_file env w' c) ∧
  local_state (snd (convert_excel_file env w c)) c
  = local_state (snd (convert_excel_file env w' c)) c.
Proof.
  intros Heq. pose proof Heq as Heq'. unfold local_state in Heq'.
  injection Heq' as Hx Hc He Hm.
  unfold convert_excel_file. rewrite Hx, Hc, He, Hm.
  destruct (excel_files w' !! c) as [xf|] eqn:Hx'; [|done]. cbv zeta.
  destruct (negb _ && negb _); [done|].
  destruct (negb (validate_data_before_conversion xf)); [done|].
  destruct (xl_book xf) as [excel_data|]; [|done].
  destruct (convert_sheets excel_data) as [|sheet converted_data]; [done|].
  destruct (env_code_writable env); [|done].
  split; [done|]. unfold local_state, _save_modified_times.
  destruct (env_times_writable env); simpl; by rewrite !lookup_insert_eq, Hx, Hx'.
Qed.

Lemma convert_frame_local (env : Env) (w : World) (stem c : string) :
  c ≠ stem → local_state (snd (convert_excel_file env w stem)) c = local_state w c.
Proof.
  intros Hne. destruct (convert_frame env w stem) as (Hx & _ & _ & Hother).
  destruct (Hother c Hne) as (Hc & He & Hm).
  unfold local_state. by rewrite Hx, Hc, He, Hm.
Qed.

Lemma convert_all_fold_local (envs : string → Env) (w : World) (l : list (string * ExcelFile))
    (seen : list string) (acc : gmap string string * World) :
  NoDup (seen ++ l.*1) →
  (∀ c, c ∉ seen → local_state (snd acc) c = local_state w c ∧ fst acc !! c = None) →
  (∀ c, c ∈ seen →
        local_state (snd acc) c = local_state (snd (convert_excel_file (envs c) w c)) c ∧
        fst acc !! c = fst (convert_excel_file (envs c) w c)) →
  let acc' := foldl (convert_all_step envs) acc l in
  (∀ c, c ∉ seen ++ l.*1 → local_state (snd acc') c = local_state w c ∧ fst acc' !! c = None) ∧
  (∀ c, c ∈ seen ++ l.*1 →
        local_state (snd acc') c = local_state (snd (convert_excel_file (envs c) w c)) c ∧
        fst acc' !! c = fst (convert_excel_file (envs c) w c)).
Proof.
  revert seen acc. induction l as [|[c0 xf0] l IH]; intros seen acc Hnd Hout Hin; cbv zeta.
  { simpl. by rewrite app_nil_r. }
  cbn [foldl]. rewrite fmap_cons, cons_middle, app_assoc in *.
  assert (c0 ∉ seen) as Hc0.
  { apply NoDup_app in Hnd as (Hnd & _ & _). apply NoDup_app in Hnd as (_ & Hdis & _).
    intros Hs. apply (Hdis _ Hs). left. }
  destruct (Hout c0 Hc0) as [Hloc Hres].
  destruct (convert_local (envs c0) (snd acc) w c0 Hloc) as [Hfst Hsnd].
  apply IH; [done|..]; unfold convert_all_step; cbn [fst snd].
  - intros c Hc. rewrite not_elem_of_app, list_elem_of_singleton in Hc.
    destruct Hc as [Hc Hne]. destruct (Hout c Hc) as [Hl Hr].
    rewrite convert_frame_local by done. split; [done|].
    destruct (fst (convert_excel_file (envs c0) (snd acc) c0)); [|done].
    by rewrite lookup_insert_ne.
  - intros c [Hc| ->%list_elem_of_singleton]%elem_of_app.
    + assert (c ≠ c0) as Hne by (by intros ->).
      destruct (Hin c Hc) as [Hl Hr].
      rewrite convert_frame_local by done. split; [done|].
      destruct (fst (convert_excel_file (envs c0) (snd acc) c0)); [|done].
      by rewrite lookup_insert_ne.
    + split; [done|]. rewrite <- Hfst.
      destruct (fst (convert_excel_file (envs c0) (snd acc) c0)); [|done].
      by rewrite lookup_insert_eq.
Qed.

Lemma convert_all_local (envs : string → Env) (w : World) (c : string) (xf : ExcelFile) :
  excel_files w !! c = Some xf →
  is_temp_file c = false →
  local_state (snd (convert_all_excel_files envs w)) c
  = local_state (snd (convert_excel_file (envs c) w c)) c ∧
  fst (convert_all_excel_files envs w) !! c = fst (convert_excel_file (envs c) w c).
Proof.
  intros Hx Ht. unfold convert_all_excel_files.
  apply (convert_all_fold_local envs w (listed_excel_files w) [] (∅, w)).
  - apply listed_excel_files_NoDup.
  - intros c' _. split; [done|]. apply lookup_empty.
  - by intros c' ?%elem_of_nil.
  - simpl. apply (list_elem_of_fmap_2 fst _ (c, xf)). by apply elem_of_listed_excel_files.
Qed.


(** ** A start that goes through *)

Lemma source_status_local (w w' : World) (c : string) (xf : ExcelFile) :
  local_state w c = local_state w' c →
  last_modified w !! c = last_modified w' !! c →
  source_status w c xf = source_status w' c xf.
Proof.
  intros Heq Hl. unfold local_state in Heq. injection Heq as _ Hc He Hm.
  unfold source_status. by rewrite Hc, He, Hm, Hl.
Qed.

Lemma loadable_local (w w' : World) (c : string) (xf : ExcelFile) :
  local_state w c = local_state w' c →
  last_modified w !! c = last_modified w' !! c →
  loadable w c xf → loadable w' c xf.
Proof.
  intros Heq Hl. unfold local_state in Heq. injection Heq as _ Hc He Hm.
  unfold loadable, compiled. by rewrite Hc, He, Hm, Hl.
Qed.

Lemma convert_compiled_skip (env : Env) (w : World) (c : string) (xf : ExcelFile)
    (cf : CodeFile) :
  excel_files w !! c = Some xf →
  compiled w c xf cf →
  convert_excel_file env w c = (None, w).
Proof.
  intros Hx (Hc & (e & He & Hne & Hle) & Hm & _).
  unfold convert_excel_file. rewrite Hx, Hc, He. cbv zeta. simpl.
  destruct (Z.eqb_spec e 0) as [|_]; [done|].
  destruct (Z.gtb_spec (xl_mtime xf) e); [lia|].
  by destruct (Z.gtb_spec (cf_mtime cf) (default 0 (module_modified_time w !! c))); [lia|].
Qed.

Lemma convert_gives_compiled (env : Env) (w : World) (c path : string) (xf : ExcelFile) :
  excel_files w !! c = Some xf →
  xl_mtime xf ≠ 0 →
  env_clock env ≠ 0 →
  fst (convert_excel_file env w c) = Some path →
  ∃ cf, compiled (snd (convert_excel_file env w c)) c xf cf.
Proof.
  intros Hx Hxl Hclock Hok.
  destruct (convert_success_records env w c path Hok)
    as (xf' & cf & Hx' & Hc & Hmt & He & Hm & _).
  destruct (convert_frame env w c) as (Hxs & _).
  rewrite Hxs, Hx in Hx'. injection Hx' as <-.
  exists cf. split; [done|]. split; [by exists (xl_mtime xf)|].
  rewrite Hm. simpl. split; [lia|congruence].
Qed.

Lemma reload_loadable (env : Env) (w : World) (c : string) (xf : ExcelFile) :
  excel_files w !! c = Some xf →
  loadable w c xf →
  source_status (snd (reload_config env w c)) c xf = StatusUpToDate.
Proof.
  intros Hx (cf & (Hc & (e & He & Hne & Hle) & Hm & Hcf) & [m Hm'] & Hlast).
  unfold reload_config, excel_is_newer. rewrite Hx, He.
  destruct (Z.gtb_spec (xl_mtime xf) e); [lia|].
  rewrite Hc. unfold _load_config_module, load_is_cached.
  destruct (last_modified w !! c) as [t|] eqn:Ht.
  - destruct (Z.leb_spec (cf_mtime cf) t).
    + simpl. unfold source_status. rewrite Hc, He, Ht. simpl.
      destruct (Z.eqb_spec e 0) as [|_]; [done|].
      destruct (Z.gtb_spec (xl_mtime xf) e); [lia|].
      destruct (Z.gtb_spec (cf_mtime cf) (default 0 (module_modified_time w !! c))); [lia|].
      destruct (Z.eqb_spec t 0) as [Hz|_]; [by destruct (Hlast t)|].
      by destruct (Z.gtb_spec (cf_mtime cf) t); [lia|].
    + rewrite Hm'. simpl. unfold source_status. simpl. rewrite Hc, He, lookup_insert_eq. simpl.
      destruct (Z.eqb_spec e 0) as [|_]; [done|].
      destruct (Z.gtb_spec (xl_mtime xf) e); [lia|].
      destruct (Z.gtb_spec (cf_mtime cf) (default 0 (module_modified_time w !! c))); [lia|].
      destruct (Z.eqb_spec (cf_mtime cf) 0) as [|_]; [done|].
      by destruct (Z.gtb_spec (cf_mtime cf) (cf_mtime cf)); [lia|].
  - rewrite Hm'. simpl. unfold source_status. simpl. rewrite Hc, He, lookup_insert_eq. simpl.
    destruct (Z.eqb_spec e 0) as [|_]; [done|].
    destruct (Z.gtb_spec (xl_mtime xf) e); [lia|].
    destruct (Z.gtb_spec (cf_mtime cf) (default 0 (module_modified_time w !! c))); [lia|].
    destruct (Z.eqb_spec (cf_mtime cf) 0) as [|_]; [done|].
    by destruct (Z.gtb_spec (cf_mtime cf) (cf_mtime cf)); [lia|].
Qed.

Lemma reload_up_to_date (env : Env) (w : World) (c : string) (xf : ExcelFile) :
  excel_files w !! c = Some xf →
  source_status w c xf = StatusUpToDate →
  snd (reload_config env w c) = w.
Proof.
  intros Hx. unfold source_status.
  destruct (code_files w !! c) as [cf|] eqn:Hc; [|done]. cbv zeta.
  destruct (excel_modified_time w !! c) as [e|] eqn:He; simpl; [|done].
  destruct (Z.eqb_spec e 0) as [|_]; [done|].
  destruct (Z.gtb_spec (xl_mtime xf) e) as [|Hle]; [done|]. simpl.
  destruct (Z.gtb_spec (cf_mtime cf) (default 0 (module_modified_time w !! c))); [done|].
  simpl.
  destruct (last_modified w !! c) as [t|] eqn:Ht; simpl; [|done].
  destruct (Z.eqb_spec t 0) as [|_]; [done|].
  destruct (Z.gtb_spec (cf_mtime cf) t) as [|Hlt]; [done|]. intros _.
  unfold reload_config, excel_is_newer. rewrite Hx, He.
  destruct (Z.gtb_spec (xl_mtime xf) e); [lia|].
  rewrite Hc. unfold _load_config_module, load_is_cached. rewrite Ht.
  by destruct (Z.leb_spec (cf_mtime cf) t); [|lia].
Qed.

Lemma reload_frame_local (env : Env) (w : World) (c c' : string) :
  c ≠ c' →
  local_state (snd (reload_config env w c')) c = local_state w c ∧
  last_modified (snd (reload_config env w c')) !! c = last_modified w !! c.
Proof.
  intros Hne. destruct (reload_config_facts env w c') as (Hx & _ & _ & Hother & _).
  destruct (Hother c Hne) as (_ & Hl & Hc & He & Hm).
  unfold local_state. by rewrite Hx, Hc, He, Hm.
Qed.

Lemma reload_all_fold_up_to_date (envs : string → Env) (c : string) (xf : ExcelFile)
    (l : list (string * CodeFile)) (acc : gmap string bool * World) :
  excel_files (snd acc) !! c = Some xf →
  source_status (snd acc) c xf = StatusUpToDate →
  source_status (snd (foldl (reload_all_step envs) acc l)) c xf = StatusUpToDate.
Proof.
  revert acc. induction l as [|[c0 cf0] l IH]; intros acc Hx Hs; [done|].
  cbn [foldl].
  assert (excel_files (snd (reload_all_step envs acc (c0, cf0))) !! c = Some xf
          ∧ source_status (snd (reload_all_step envs acc (c0, cf0))) c xf = StatusUpToDate)
    as [Hx' Hs'].
  { unfold reload_all_step. cbn [fst snd]. rewrite config_name_of_code_stem.
    destruct (decide (c = c0)) as [<-|Hne].
    - by rewrite (reload_up_to_date _ _ _ xf).
    - destruct (reload_config_facts (envs c0) (snd acc) c0) as (Hxs & _).
      destruct (reload_frame_local (envs c0) (snd acc) c c0 Hne) as [Hloc Hl].
      split; [by rewrite Hxs|]. by rewrite (source_status_local _ (snd acc)). }
  by apply IH.
Qed.

Lemma reload_all_fold_loadable (envs : string → Env) (c : string) (xf : ExcelFile)
    (l : list (string * CodeFile)) (acc : gmap string bool * World) :
  excel_files (snd acc) !! c = Some xf →
  loadable (snd acc) c xf →
  c ∈ l.*1 →
  source_status (snd (foldl (reload_all_step envs) acc l)) c xf = StatusUpToDate.
Proof.
  revert acc. induction l as [|[c0 cf0] l IH]; intros acc Hx Hload Hin.
  { by apply elem_of_nil in Hin. }
  cbn [foldl]. destruct (decide (c = c0)) as [<-|Hne].
  - apply reload_all_fold_up_to_date; unfold reload_all_step; cbn [fst snd];
      rewrite config_name_of_code_stem.
    + destruct (reload_config_facts (envs c) (snd acc) c) as (Hxs & _). by rewrite Hxs.
    + by apply reload_loadable.
  - rewrite fmap_cons in Hin. apply elem_of_cons in Hin as [?|Hin]; [done|].
    apply IH; [..|done]; unfold reload_all_step; cbn [fst snd];
      rewrite config_name_of_code_stem.
    + destruct (reload_config_facts (envs c0) (snd acc) c0) as (Hxs & _). by rewrite Hxs.
    + destruct (reload_frame_local (envs c0) (snd acc) c c0 Hne) as [Hloc Hl].
      by apply (loadable_local (snd acc)).
Qed.

Lemma reload_all_loadable (envs : string → Env) (w : World) (c : string) (xf : ExcelFile) :
  excel_files w !! c = Some xf →
  loadable w c xf →
  source_status (snd (reload_all_configs envs w)) c xf = StatusUpToDate.
Proof.
  intros Hx Hload. unfold reload_all_configs.
  apply reload_all_fold_loadable; [done..|].
  destruct Hload as (cf & (Hc & _) & _).
  apply (list_elem_of_fmap_2 fst _ (c, cf)). by apply elem_of_map_to_list.
Qed.

(** X30: when the start goes through.  Let no module have been loaded at time
    zero, let every module file have its source file, and let every source
    file that is not temporary be in one of two cases: its conversion
    succeeds (neither its time nor the time of the write being zero), or
    its module file is there and by the record neither file changed; and
    let the module file loads in both cases.  Then, whatever the order of
    the files and whatever else the conversions and reloads do, the global
    check finds everything up to date and the start goes on. *)
Theorem startup_passes (envs envs' : string → Env) (w : World) :
  (∀ c t, last_modified w !! c = Some t → t ≠ 0) →
  (∀ c, is_Some (code_files w !! c) → is_Some (excel_files w !! c)) →
  (∀ c xf, excel_files w !! c = Some xf → is_temp_file c = false →
     ∃ cf, code_files (snd (convert_excel_file (envs c) w c)) !! c = Some cf ∧
           is_Some (exec_module (cf_text cf)) ∧
           ((is_Some (fst (convert_excel_file (envs c) w c)) ∧
             xl_mtime xf ≠ 0 ∧ env_clock (envs c) ≠ 0)
            ∨ compiled w c xf cf)) →
  fst (startup envs envs' w) = true.
Proof.
  intros Hlast Horph Hsrc. unfold startup. simpl.
  destruct (convert_all_facts envs w) as (_ & Hframe & Hx1 & _ & Hl1).
  destruct (reload_all_facts envs' (snd (convert_all_excel_files envs w)))
    as (_ & _ & Hx2 & Hnosrc).
  set (w1 := snd (convert_all_excel_files envs w)) in *.
  apply check_all_flag_facts. split.
  - intros c xf Hx Htemp. rewrite Hx2, Hx1 in Hx.
    apply reload_all_loadable; [by rewrite Hx1|].
    destruct (convert_all_local envs w c xf Hx Htemp) as [Hloc _].
    destruct (convert_frame (envs c) w c) as (_ & _ & Hl0 & _).
    apply (loadable_local (snd (convert_excel_file (envs c) w c))); [done|..].
    { by rewrite Hl0, Hl1. }
    destruct (Hsrc c xf Hx Htemp) as (cf & Hc & Hm & [([path Hok] & Hxl & Hclock)|Hcomp]).
    + destruct (convert_gives_compiled (envs c) w c path xf Hx Hxl Hclock Hok)
        as (cf' & Hcomp).
      assert (cf' = cf) as -> by (destruct Hcomp as [Hc' _]; congruence).
      exists cf. split; [done|]. split; [done|]. intros t. rewrite Hl0. apply Hlast.
    + rewrite (convert_compiled_skip _ _ _ xf cf) by done. simpl.
      exists cf. split; [done|]. split; [done|]. apply Hlast.
  - intros c [cf Hc]. rewrite Hx2, Hx1.
    destruct (excel_files w !! c) as [xf|] eqn:Hx; [by eexists|].
    rewrite <- Hx. apply Horph. rewrite Hnosrc in Hc by by rewrite Hx1.
    destruct (Hframe c) as (Hc' & _); [by left|]. rewrite <- Hc'. by eexists.
Qed.

End Properties.

(** * The properties at work, and where the claims as first stated fail *)

Section Cases.
#[local] Existing Instance example_float.
#[local] Existing Instance example_libs.

(** C1 as first stated fails: the same config name, data and source path give
    two different texts under two clock readings. *)
Lemma generate_python_code_clock_counterexample :
  _generate_python_code "nlp" [("main", greeting_data)] (excel_path "nlp")
    "2025-01-01T00:00:00"
  ≠ _generate_python_code "nlp" [("main", greeting_data)] (excel_path "nlp")
      "2025-01-01T00:00:01".
Proof. intros Heq. vm_compute in Heq. discriminate Heq. Qed.

(** C9, at the text [YES] under the tag [bool]. *)
Lemma process_bool_by_kind_witness :
  norm_type (CStr "bool") = "bool" ∧
  _process_value_by_type (CStr "YES") (CStr "bool") = VBool true.
Proof.
  split; [reflexivity|].
  exact (process_bool_by_kind (CStr "YES") (CStr "bool") eq_refl).
Defined.

(** C9 as first stated fails: the integer 2 is none of the true-like
    literals, and it is coerced to true. *)
Lemma process_bool_counterexample :
  _process_value_by_type (CInt 2) (CStr "bool") = VBool true ∧
  _process_value_by_type (CInt 2) (CStr "bool") ≠ VBool false.
Proof. split; [reflexivity|discriminate]. Qed.

(** C6, at an opening bracket without its closing one, and a trailing
    space. *)
Lemma parse_list_malformed_brackets_witness :
  bracket_malformed (strip "[a ") = true ∧
  _parse_list_value (CStr "[a ") = [VStr "[a"].
Proof.
  split; [reflexivity|].
  exact (proj1 (parse_list_malformed_brackets "[a " eq_refl) eq_refl).
Defined.

(** C6 as first stated fails: with a comma inside, the malformed text is
    split in two. *)
Lemma parse_list_malformed_counterexample :
  bracket_malformed "[a, b" = true ∧
  _parse_list_value (CStr "[a, b") = [VStr "[a"; VStr "b"] ∧
  _parse_list_value (CStr "[a, b") ≠ [VStr "[a, b"].
Proof. split; [reflexivity|]. split; [reflexivity|discriminate]. Qed.

(** C4, at the second data row of the greeting sheet and its [Name]
    column. *)
Lemma convert_sheet_empty_cell_is_none_witness :
  ∃ item_data,
    dict_get (CStr "bye") (_convert_sheet_to_dict greeting_sheet) = Some (VDict item_data) ∧
    dict_get (CStr "Name") item_data = Some VNone.
Proof.
  apply (convert_sheet_empty_cell_is_none greeting_sheet
           [CStr "bye"; NaN; CStr "[再见]"] 1 0 (CStr "Name")).
  - reflexivity.
  - simpl. lia.
  - simpl. apply NoDup_cons. split; [|apply NoDup_singleton].
    rewrite list_elem_of_singleton. discriminate.
  - reflexivity.
  - reflexivity.
  - reflexivity.
  - intros [|[|[|j']]] row' Hrow' Hj'; simpl in Hrow'; simplify_eq; done.
  - reflexivity.
  - reflexivity.
Defined.

(** C4 as first stated fails: the row without a [Name] has the key [Name] in
    its attribute mapping. *)
Lemma convert_sheet_empty_cell_counterexample :
  dict_get (CStr "bye") (_convert_sheet_to_dict greeting_sheet)
  = Some (VDict [(CStr "Name", VNone); (CStr "Keywords", VList [VStr "再见"])]) ∧
  dict_get (CStr "Name") [(CStr "Name", VNone); (CStr "Keywords", VList [VStr "再见"])]
  ≠ None.
Proof. split; [reflexivity|discriminate]. Qed.

(** C5, at a source file whose only sheet declares a [float] key column. *)
Lemma convert_aborts_on_sheet_error_witness :
  convert_excel_file example_env broken_source_world "nlp" = (None, broken_source_world) ∧
  code_files (snd (convert_excel_file example_env broken_source_world "nlp"))
  = code_files broken_source_world.
Proof.
  apply (convert_aborts_on_sheet_error example_env broken_source_world "nlp"
           {| xl_mtime := 200; xl_size := 4096;
              xl_book := Some [("main", float_key_sheet)] |}
           [("main", float_key_sheet)] ("main", float_key_sheet)).
  - reflexivity.
  - reflexivity.
  - left.
  - discriminate.
  - right. exists (CStr "float"). split; [reflexivity|].
    apply (bool_decide_eq_false_1 (norm_type (CStr "float") ∈ valid_key_types)).
    reflexivity.
Defined.

(** C7, at a config compiled once and left alone. *)
Lemma convert_unchanged_is_noop_witness :
  convert_excel_file example_env settled_world "nlp" = (None, settled_world).
Proof.
  apply (convert_unchanged_is_noop example_env settled_world "nlp"
           {| xl_mtime := 50; xl_size := 4096;
              xl_book := Some [("main", greeting_sheet)] |}
           greeting_code_file).
  - reflexivity.
  - reflexivity.
  - reflexivity.
  - reflexivity.
  - discriminate.
Defined.

(** C7 as first stated fails: a source file whose modification time is the
    epoch, recorded as such, is taken for a file never converted; the
    conversion runs and rewrites the module file. *)
Lemma convert_unchanged_epoch_counterexample :
  (∃ xf cf,
     excel_files epoch_world !! "nlp" = Some xf ∧
     code_files epoch_world !! "nlp" = Some cf ∧
     excel_modified_time epoch_world !! "nlp" = Some (xl_mtime xf) ∧
     module_modified_time epoch_world !! "nlp" = Some (cf_mtime cf)) ∧
  fst (convert_excel_file example_env epoch_world "nlp") = Some (code_path "nlp") ∧
  code_files (snd (convert_excel_file example_env epoch_world "nlp")) !! "nlp"
  ≠ code_files epoch_world !! "nlp".
Proof.
  split; [|split].
  - by eexists _, _.
  - reflexivity.
  - intros Heq. vm_compute in Heq. discriminate Heq.
Qed.

(** C3, at a source file edited into an invalid sheet: the module generated
    before the edit loads, and the reload says true. *)
Lemma reload_config_invalid_source_witness :
  validate_data_before_conversion
    {| xl_mtime := 200; xl_size := 4096; xl_book := Some [("main", float_key_sheet)] |}
  = false ∧
  code_files (snd (reload_config example_env broken_source_world "nlp"))
  = code_files broken_source_world.
Proof.
  split; [reflexivity|].
  exact (proj1 (reload_config_invalid_source example_env broken_source_world "nlp"
                  {| xl_mtime := 200; xl_size := 4096;
                     xl_book := Some [("main", float_key_sheet)] |}
                  eq_refl eq_refl)).
Defined.

(** C3 as first stated fails: the source file exists and fails validation,
    and the reload returns true. *)
Lemma reload_config_invalid_source_counterexample :
  (∃ xf, excel_files broken_source_world !! "nlp" = Some xf ∧
         validate_data_before_conversion xf = false) ∧
  fst (reload_config example_env broken_source_world "nlp") = true.
Proof. split; [by eexists|reflexivity]. Qed.


(** X1, at a text with a tab and a backslash. *)
Lemma escape_string_roundtrip_witness :
  eval_string_literal (_escape_string (String "a" (String TAB (String backslash "b"))))
  = LitOk (String "a" (String TAB (String backslash "b"))).
Proof. apply escape_string_roundtrip; reflexivity. Defined.

(** X2, at the text 42 in an int column. *)
Lemma validated_value_is_parsed_witness :
  ∃ z, py_int (CStr "42") = Some z ∧
       _process_value_by_type (CStr "42") (CStr "int") = VInt z.
Proof.
  exact (proj1 (validated_value_is_parsed (CStr "42") (CStr "int") eq_refl eq_refl) eq_refl).
Defined.

(** X3, at a list of three items. *)
Lemma parse_list_bracketed_length_witness :
  length (_parse_list_value (CStr "[1, 2, three]")) = 3%nat.
Proof.
  exact (parse_list_bracketed_length "[1, 2, three]" eq_refl ltac:(discriminate)).
Defined.

(** X5, at the second data row of the greeting sheet. *)
Lemma row_item_data_columns_witness :
  row_item_data [CStr "id"; CStr "Name"; CStr "Keywords"]
    [CStr "string"; CStr "string"; CStr "list"] [CStr "bye"; NaN; CStr "[再见]"]
  = [(CStr "Name", VNone); (CStr "Keywords", VList [VStr "再见"])].
Proof.
  apply (row_item_data_columns [CStr "id"; CStr "Name"; CStr "Keywords"]
           [CStr "string"; CStr "string"; CStr "list"] [CStr "bye"; NaN; CStr "[再见]"]).
  simpl. apply NoDup_cons. split; [|apply NoDup_singleton].
  rewrite list_elem_of_singleton. discriminate.
Defined.



(** X8, at the greeting sheet, for its keys. *)
Lemma validated_sheet_shape_witness :
  NoDup (sheet_keys greeting_sheet).
Proof.
  exact (proj1 (proj2 (proj2 (validated_sheet_shape greeting_sheet eq_refl)))).
Defined.

(** X9, at the greeting sheet, for its keys. *)
Lemma validated_sheet_compiles_witness :
  (_convert_sheet_to_dict greeting_sheet).*1 = sheet_keys greeting_sheet.
Proof.
  exact (proj1 (proj2 (validated_sheet_compiles greeting_sheet eq_refl))).
Defined.

(** X13, at the first conversion of a source file. *)
Lemma convert_excel_file_records_witness :
  ∃ xf cf,
    excel_files (snd (convert_excel_file new_year_env fresh_world "nlp")) !! "nlp" = Some xf ∧
    code_files (snd (convert_excel_file new_year_env fresh_world "nlp")) !! "nlp" = Some cf ∧
    cf_mtime cf = 100 ∧
    excel_modified_time (snd (convert_excel_file new_year_env fresh_world "nlp")) !! "nlp"
    = Some (xl_mtime xf) ∧
    module_modified_time (snd (convert_excel_file new_year_env fresh_world "nlp")) !! "nlp"
    = Some (cf_mtime cf) ∧
    (true = true →
       ∃ data, times_file (snd (convert_excel_file new_year_env fresh_world "nlp")) = Some data ∧
               data !! "nlp" = Some (xl_mtime xf, cf_mtime cf)).
Proof.
  exact (convert_excel_file_records new_year_env fresh_world "nlp" (code_path "nlp") eq_refl).
Defined.

(** X14, at a second conversion, at a later time. *)
Lemma convert_excel_file_twice_witness :
  convert_excel_file example_env
    (snd (convert_excel_file new_year_env fresh_world "nlp")) "nlp"
  = (None, snd (convert_excel_file new_year_env fresh_world "nlp")).
Proof.
  apply (convert_excel_file_twice new_year_env example_env fresh_world "nlp" (code_path "nlp")
           {| xl_mtime := 50; xl_size := 4096; xl_book := Some [("main", greeting_sheet)] |}).
  - reflexivity.
  - discriminate.
  - reflexivity.
Defined.

(** X15, at the settled state. *)
Lemma save_then_start_witness :
  excel_modified_time (process_start (_save_modified_times example_env settled_world))
  = excel_modified_time settled_world.
Proof. exact (proj1 (save_then_start example_env settled_world eq_refl)). Defined.

(** X16, at a conversion followed by a restart. *)
Lemma convert_after_restart_witness :
  convert_excel_file example_env
    (process_start (snd (convert_excel_file new_year_env fresh_world "nlp"))) "nlp"
  = (None, process_start (snd (convert_excel_file new_year_env fresh_world "nlp"))).
Proof.
  apply (convert_after_restart new_year_env example_env fresh_world "nlp" (code_path "nlp")
           {| xl_mtime := 50; xl_size := 4096; xl_book := Some [("main", greeting_sheet)] |}).
  - reflexivity.
  - discriminate.
  - reflexivity.
  - reflexivity.
Defined.

(** X19, at the loaded greeting module. *)
Lemma list_sheets_generated_witness :
  "MAIN" ∈ fst (list_sheets example_env orphan_world "nlp") ∧
  sheet_var_name "nlp" "MAIN" = sheet_var_name "nlp" "main" ∧
  fst (get_config_sheet example_env orphan_world "nlp" "MAIN") = Some (VDict greeting_data).
Proof.
  exact (list_sheets_generated example_env orphan_world "nlp" "main"
           {[ "NLP_MAIN_CONFIG" := VDict greeting_data ]} (VDict greeting_data)
           eq_refl eq_refl).
Defined.


(** X28, at a module file whose source file is gone. *)
Lemma startup_orphan_blocks_witness :
  fst (startup (λ _, example_env) (λ _, example_env) orphan_world) = false.
Proof.
  apply (startup_orphan_blocks (λ _, example_env) (λ _, example_env) orphan_world "nlp").
  - by eexists.
  - reflexivity.
Defined.

(** X30, at a first start with one source file. *)
Lemma startup_passes_witness :
  fst (startup (λ _, new_year_env) (λ _, example_env) fresh_world) = true.
Proof.
  apply startup_passes.
  - intros c t Ht. simpl in Ht. by rewrite lookup_empty in Ht.
  - intros c [cf Hcf]. simpl in Hcf. by rewrite lookup_empty in Hcf.
  - intros c xf Hx Htemp. simpl in Hx. apply lookup_singleton_Some in Hx as [<- <-].
    exists {| cf_mtime := 100; cf_text := greeting_artifact |}.
    split; [reflexivity|]. split; [by eexists|]. left.
    split; [by eexists|]. split; discriminate.
Defined.

End Cases.
